(** * The answer evaluator of the interview coach

    A shallow embedding of [evaluate_answer] from
    [cyber-interview-bot/cyber_interview_bot.py] together with the Python
    primitives it calls ([str.lower], [str.split], the [in] test on strings,
    [round], true division, [re.search] on the one pattern the function uses,
    and the integer formatting of f-strings).

    Conventions of the model.
    - A Python [str] is a Rocq [string]; a character is read as the code
      point of its 8 bits, U+0000..U+00FF.  The character classes below are
      the ones CPython has on that range.
    - A Python [int] is a [Z].
    - The [float] named [coverage] is a rational [Q]: the quotient
      [matched / len(keywords)] is a fraction between 0 and 1, and as long as
      the keyword list has fewer than 2^49 entries the double nearest to it,
      multiplied by 8 or by 7 and rounded, and its comparisons with 0.7 and
      0.5, give what the exact fraction gives.  Away from a tie of [round]
      the exact product is at least 1/(2 len(keywords)) from the tie and the
      double within 2^-49 of the exact product; at a tie the fraction is an
      odd multiple of 1/16, which a double holds exactly, or of 1/14, where
      the double product is the tie itself for each of the seven fractions.
    - An exception is the left injection of the result type [M].

    Around the evaluator the file embeds its callers: [get_multiline_input],
    [choose_questions], [give_feedback], [explain_concept], [log_session],
    the loops of [interactive_session] (the choice of the difficulty, the
    questions, the follow-up prompt, the adaptive rule) and the handler of
    [/api/evaluate] with the index [QUESTIONS_BY_ID].  The console and the
    log file are a record that the functions pass along; the generator of
    [random], [str.title] and the clock are parameters.

    [evaluate_answer] is embedded twice: as a function of its two arguments,
    and, for what it does to the state of the process, as a computation on
    the heap of list objects, the generator and the console
    ([evaluate_answer_on]); [evaluate_answer_on_refines] relates the two. *)

From Stdlib Require Import ZArith QArith Qround Bool List Lia Lqa.
From Stdlib Require Import Permutation.
From Stdlib Require Import Ascii String DecimalString.
Import ListNotations.

Open Scope string_scope.
Open Scope Z_scope.

(** ** Exceptions *)

Module Py.

Inductive exn : Type :=
| ZeroDivisionError.

Definition M (A : Type) : Type := (exn + A)%type.

Definition ok {A : Type} (a : A) : M A := inr a.
Definition raise {A : Type} (e : exn) : M A := inl e.

Definition bind {A B : Type} (m : M A) (k : A -> M B) : M B :=
  match m with
  | inl e => inl e
  | inr a => k a
  end.

End Py.

Notation "x <- m ;; k" := (Py.bind m (fun x => k))
  (at level 61, m at next level, right associativity).

(** ** Characters *)

Module Char.

Definition code (c : ascii) : N := N_of_ascii c.

Definition between (lo hi : N) (c : ascii) : bool :=
  ((lo <=? code c) && (code c <=? hi))%N.

Definition is_code (n : N) (c : ascii) : bool := (code c =? n)%N.

(** [str.lower] on one character: A-Z, and the capital letters of
    U+00C0..U+00DE other than the multiplication sign U+00D7. *)
Definition has_lower (c : ascii) : bool :=
  between 65 90 c || between 192 214 c || between 216 222 c.

Definition lower (c : ascii) : ascii :=
  if has_lower c then ascii_of_N (code c + 32) else c.

(** [str.isspace], which is also the class [\s] of [re] on a [str]
    pattern: TAB..CR, the separators U+001C..U+001F, the space, NEL and the
    no-break space. *)
Definition is_space (c : ascii) : bool :=
  between 9 13 c || between 28 31 c || is_code 32 c
  || is_code 133 c || is_code 160 c.

(** The class [\d] of [re]: the decimal digits. *)
Definition is_digit (c : ascii) : bool := between 48 57 c.

(** The class [\w] of [re]: alphanumeric characters and the underscore.  On
    U+0080..U+00FF the alphanumerics are the two ordinal indicators, the
    micro sign, the superscript digits, the three vulgar fractions and the
    letters. *)
Definition is_word (c : ascii) : bool :=
  between 48 57 c || between 65 90 c || between 97 122 c || is_code 95 c
  || is_code 170 c || is_code 178 c || is_code 179 c || is_code 181 c
  || is_code 185 c || is_code 186 c || between 188 190 c
  || between 192 214 c || between 216 246 c || between 248 255 c.

(** The letters a-z and A-Z, and [str.upper] on them *)
Definition is_ascii_lower (c : ascii) : bool := between 97 122 c.

Definition is_ascii_letter (c : ascii) : bool :=
  between 65 90 c || between 97 122 c.

Definition upper_ascii (c : ascii) : ascii :=
  if is_ascii_lower c then ascii_of_N (code c - 32) else c.

End Char.

(** ** Strings *)

Module Str.

(** [s.lower()] *)
Fixpoint lower (s : string) : string :=
  match s with
  | EmptyString => EmptyString
  | String c s' => String (Char.lower c) (lower s')
  end.

(** [sub in s] *)
Fixpoint contains (sub s : string) : bool :=
  match s with
  | EmptyString => prefix sub EmptyString
  | String _ s' => prefix sub s || contains sub s'
  end.

(** [s.split()]: the maximal runs of characters that are not white space.
    [cur] is the run being read, in reverse. *)
Fixpoint rev_chars (l : list ascii) (acc : string) : string :=
  match l with
  | [] => acc
  | c :: l' => rev_chars l' (String c acc)
  end.

Definition flush (cur : list ascii) (acc : list string) : list string :=
  match cur with
  | [] => acc
  | _ => (acc ++ [rev_chars cur EmptyString])%list
  end.

Fixpoint split_from (s : string) (cur : list ascii) (acc : list string)
  : list string :=
  match s with
  | EmptyString => flush cur acc
  | String c s' =>
      if Char.is_space c then split_from s' [] (flush cur acc)
      else split_from s' (c :: cur) acc
  end.

Definition split (s : string) : list string := split_from s [] [].

(** [sep.join(parts)] *)
Fixpoint join (sep : string) (parts : list string) : string :=
  match parts with
  | [] => EmptyString
  | [p] => p
  | p :: rest => p ++ sep ++ join sep rest
  end.

(** [str(n)], the way an f-string prints an [int] *)
Definition of_int (n : Z) : string := NilZero.string_of_int (Z.to_int n).

(** [len] of a list, as an [int] *)
Definition len {A : Type} (l : list A) : Z := Z.of_nat (List.length l).

(** The dash U+2014 of two feedback messages, in the three bytes of its
    UTF-8 encoding; no rule of the evaluator reads it. *)
Definition em_dash : string :=
  String (ascii_of_N 226) (String (ascii_of_N 128) (String (ascii_of_N 148) EmptyString)).

(** The line feed *)
Definition nl : string := String (ascii_of_N 10) EmptyString.

(** [s.lstrip()], [s.rstrip()] and [s.strip()] with no argument: the white
    space of [str.isspace] is removed from the ends. *)
Fixpoint lstrip (s : string) : string :=
  match s with
  | EmptyString => EmptyString
  | String c s' => if Char.is_space c then lstrip s' else s
  end.

Fixpoint rstrip (s : string) : string :=
  match s with
  | EmptyString => EmptyString
  | String c s' =>
      match rstrip s' with
      | EmptyString => if Char.is_space c then EmptyString
                       else String c EmptyString
      | r => String c r
      end
  end.

Definition strip (s : string) : string := rstrip (lstrip s).

(** Every character of [s] is white space ([s] may be empty). *)
Fixpoint all_space (s : string) : bool :=
  match s with
  | EmptyString => true
  | String c s' => Char.is_space c && all_space s'
  end.

(** Every character of [s] is one of the letters a-z and A-Z, or one of
    a-z. *)
Fixpoint all_letters (s : string) : bool :=
  match s with
  | EmptyString => true
  | String c s' => Char.is_ascii_letter c && all_letters s'
  end.

Fixpoint all_lower_letters (s : string) : bool :=
  match s with
  | EmptyString => true
  | String c s' => Char.is_ascii_lower c && all_lower_letters s'
  end.

(** [l[:count]] *)
Definition slice_to {A : Type} (l : list A) (count : Z) : list A :=
  if count <? 0 then firstn (Z.to_nat (Z.max 0 (len l + count))) l
  else firstn (Z.to_nat count) l.

End Str.

(** ** Numbers *)

Module Num.

(** [a / b] on two [int]s *)
Definition truediv (a b : Z) : Py.M Q :=
  if b =? 0 then Py.raise Py.ZeroDivisionError
  else Py.ok (inject_Z a / inject_Z b)%Q.

(** [round(x)] with one argument: to the nearest integer, a tie to the
    even one. *)
Definition round (x : Q) : Z :=
  let f := Qfloor x in
  match (x - inject_Z f ?= 1 # 2)%Q with
  | Lt => f
  | Gt => f + 1
  | Eq => if Z.even f then f else f + 1
  end.

(** [x > y] and [x < y] on floats *)
Definition gt (x y : Q) : bool := negb (Qle_bool x y).
Definition lt (x y : Q) : bool := negb (Qle_bool y x).

End Num.

(** ** Regular expressions

    The matcher of [re] is a backtracking one.  A pattern is modelled by the
    list of all the ways it can match at a position, in the order the
    backtracking tries them: a position is the character before it (none at
    the start of the text) and the text that is left. *)

Module Re.

Definition pos : Type := (option ascii * string)%type.
Definition pattern : Type := pos -> list pos.

(** A literal word *)
Fixpoint lit (w : string) (p : pos) : list pos :=
  match w with
  | EmptyString => [p]
  | String c w' =>
      match snd p with
      | String d rest => if Ascii.eqb c d then lit w' (Some d, rest) else []
      | EmptyString => []
      end
  end.

(** [C+] for a character class [C], the longest run first *)
Fixpoint plus_in (cls : ascii -> bool) (s : string) : list pos :=
  match s with
  | String c s' => if cls c then (plus_in cls s' ++ [(Some c, s')])%list else []
  | EmptyString => []
  end.

Definition plus (cls : ascii -> bool) : pattern :=
  fun p => plus_in cls (snd p).

(** [a b] and [a|b] *)
Definition seq (a b : pattern) : pattern := fun p => flat_map b (a p).
Definition alt (a b : pattern) : pattern := fun p => (a p ++ b p)%list.

(** [\b]: exactly one of the characters around the position is a [\w]
    character; the two ends of the text count as not being one. *)
Definition word_at (c : option ascii) : bool :=
  match c with
  | Some c => Char.is_word c
  | None => false
  end.

Definition next (s : string) : option ascii :=
  match s with
  | String c _ => Some c
  | EmptyString => None
  end.

Definition word_boundary : pattern :=
  fun p => if xorb (word_at (fst p)) (word_at (next (snd p))) then [p] else [].

(** [re.search(pattern, s)] read as a truth value: some position of [s],
    the end included, has a match. *)
Fixpoint search_from (r : pattern) (prev : option ascii) (s : string) : bool :=
  match r (prev, s) with
  | _ :: _ => true
  | [] =>
      match s with
      | String c s' => search_from r (Some c) s'
      | EmptyString => false
      end
  end.

Definition search (r : pattern) (s : string) : bool := search_from r None s.

End Re.

(** ** Questions and results *)

(** A question is a record of [questions.json].  A field is [None] when the
    key is absent from the record. *)
Record Question : Type := {
  q_id : option string;
  q_question : option string;
  q_type : option string;
  q_difficulty : option string;
  q_keywords : option (list string);
  q_explanation : option string;
  q_references : option (list string)
}.

(** [d.get(key, default)] *)
Definition get {A : Type} (field : option A) (default : A) : A :=
  match field with
  | Some v => v
  | None => default
  end.

(** The tuple [evaluate_answer] returns *)
Record Result : Type := {
  res_score : Z;
  res_reason : string;
  res_strengths : list string;
  res_weaknesses : list string;
  res_tips : list string
}.

(** The local variables of [evaluate_answer] that the branches update *)
Record locals : Type := {
  score : Z;
  strengths : list string;
  weaknesses : list string;
  tips : list string;
  reasoning_parts : list string
}.

Definition initial : locals :=
  {| score := 0; strengths := []; weaknesses := []; tips := [];
     reasoning_parts := [] |}.

Definition set_score (n : Z) (l : locals) : locals :=
  {| score := n; strengths := strengths l; weaknesses := weaknesses l;
     tips := tips l; reasoning_parts := reasoning_parts l |}.

Definition add_strength (m : string) (l : locals) : locals :=
  {| score := score l; strengths := strengths l ++ [m];
     weaknesses := weaknesses l; tips := tips l;
     reasoning_parts := reasoning_parts l |}.

Definition add_weakness (m : string) (l : locals) : locals :=
  {| score := score l; strengths := strengths l;
     weaknesses := weaknesses l ++ [m]; tips := tips l;
     reasoning_parts := reasoning_parts l |}.

Definition add_tip (m : string) (l : locals) : locals :=
  {| score := score l; strengths := strengths l; weaknesses := weaknesses l;
     tips := tips l ++ [m]; reasoning_parts := reasoning_parts l |}.

Definition add_part (m : string) (l : locals) : locals :=
  {| score := score l; strengths := strengths l; weaknesses := weaknesses l;
     tips := tips l; reasoning_parts := reasoning_parts l ++ [m] |}.

(** Truth values of a [str] and of a [list] *)
Definition str_truthy (s : string) : bool :=
  match s with
  | EmptyString => false
  | String _ _ => true
  end.

Definition list_truthy {A : Type} (l : list A) : bool :=
  match l with
  | [] => false
  | _ :: _ => true
  end.

(** ** The rule tables *)

(** The loop [for kw in keywords: if kw.lower() in ans_lower: matched += 1] *)
Definition count_matched (keywords : list string) (ans_lower : string) : Z :=
  fold_left
    (fun matched kw =>
       if Str.contains (Str.lower kw) ans_lower then matched + 1 else matched)
    keywords 0.

Definition star_markers : list string :=
  ["situation"; "task"; "action"; "result"; "challenge"; "led";
   "implemented"; "outcome"; "impact"; "responsib"].

(** The loop [for kw in [...]: if kw in ans_lower: star_hits += 1] *)
Definition count_star_hits (ans_lower : string) : Z :=
  fold_left
    (fun star_hits kw =>
       if Str.contains kw ans_lower then star_hits + 1 else star_hits)
    star_markers 0.

(** The pattern
    [\b(\d+%|\d+\s+(days|weeks|months|years)|reduced|improved|decreased|increased)\b] *)
Definition metric_pattern : Re.pattern :=
  Re.seq Re.word_boundary
    (Re.seq
       (Re.alt (Re.seq (Re.plus Char.is_digit) (Re.lit "%"))
       (Re.alt (Re.seq (Re.plus Char.is_digit)
                  (Re.seq (Re.plus Char.is_space)
                     (Re.alt (Re.lit "days")
                     (Re.alt (Re.lit "weeks")
                     (Re.alt (Re.lit "months") (Re.lit "years"))))))
       (Re.alt (Re.lit "reduced")
       (Re.alt (Re.lit "improved")
       (Re.alt (Re.lit "decreased") (Re.lit "increased"))))))
       Re.word_boundary).

(** ** The three branches of [evaluate_answer]

    Each branch returns the local variables it leaves and its [reasoning]. *)

(** [if qtype == "technical":] (lines 71-105) *)
Definition technical_branch
  (keywords : list string) (explanation answer_text : string)
  : Py.M (locals * string) :=
  l1 <- (if list_truthy keywords then
           let matched := count_matched keywords (Str.lower answer_text) in
           coverage <- Num.truediv matched (Str.len keywords) ;;
           let l := set_score (Num.round (coverage * 8)%Q) initial in
           let l := add_part
                      ("Keyword coverage: " ++ Str.of_int matched ++ "/"
                         ++ Str.of_int (Str.len keywords)) l in
           Py.ok
             (if Num.gt coverage (7 # 10) then
                add_strength "Covered most key concepts" l
              else
                add_tip
                  "Make sure to mention the core terms and explain how they fit together. Consider a short definition followed by an example."
                  (add_weakness "Missed some important concepts" l))
         else
           Py.ok
             (set_score (Z.min 6 (Str.len (Str.split answer_text) / 20))
                initial)) ;;
  let word_count := Str.len (Str.split answer_text) in
  let l2 :=
    if word_count >? 120 then
      add_strength "Provided detailed answer"
        (set_score (Z.min 10 (score l1 + 1)) l1)
    else if word_count <? 30 then
      add_weakness "Answer was short; expand with steps or examples"
        (set_score (Z.max 0 (score l1 - 1)) l1)
    else l1 in
  let l3 := set_score (Z.max 0 (Z.min 10 (score l2))) l2 in
  let reasoning :=
    if list_truthy (reasoning_parts l3) then
      Str.join "; " (reasoning_parts l3)
    else "Evaluated technical response by heuristics." in
  let l4 :=
    if str_truthy explanation && (score l3 <? 6) then
      add_tip ("Review the key concept: " ++ explanation) l3
    else l3 in
  Py.ok (l4, reasoning).

(** [elif qtype == "behavioral":] (lines 107-124) *)
Definition behavioral_branch (answer_text : string) : Py.M (locals * string) :=
  let ans_lower := Str.lower answer_text in
  let star_hits := count_star_hits ans_lower in
  let l1 := set_score (Z.min 10 (star_hits * 2)) initial in
  let l2 :=
    if Re.search metric_pattern ans_lower then
      add_strength "Included measurable results or metrics"
        (set_score (Z.min 10 (score l1 + 2)) l1)
    else l1 in
  let l3 :=
    if star_hits >=? 3 then
      add_strength
        ("Clear structure " ++ Str.em_dash ++ " covers multiple STAR elements")
        l2
    else
      add_tip
        "Use the STAR method: briefly state the Situation and Task, describe Actions you took, and end with the Result (preferably quantifiable)."
        (add_weakness
           "Missing parts of the STAR structure (Situation, Task, Action, Result)"
           l2) in
  Py.ok (l3, "Detected STAR-like keywords: " ++ Str.of_int star_hits).

(** [else:] (lines 125-141) *)
Definition scenario_branch (keywords : list string) (answer_text : string)
  : Py.M (locals * string) :=
  let ans_lower := Str.lower answer_text in
  let matched := count_matched keywords ans_lower in
  coverage <- (if list_truthy keywords then
                 Num.truediv matched (Str.len keywords)
               else Py.ok 0%Q) ;;
  let l1 := set_score (Num.round (coverage * 7)%Q) initial in
  let l2 :=
    if Str.contains "step" ans_lower || Str.contains "first" ans_lower
       || Str.contains "then" ans_lower then
      add_strength "Provided a stepwise approach"
        (set_score (score l1 + 2) l1)
    else l1 in
  let l3 :=
    if Num.lt coverage (1 # 2) then
      add_tip
        "Outline a clear step-by-step plan and mention key controls or mitigations."
        (add_weakness "Missed some technical or process-oriented items" l2)
    else l2 in
  Py.ok
    (l3,
     "Scenario heuristic: " ++ Str.of_int matched ++ "/"
       ++ Str.of_int (if list_truthy keywords then Str.len keywords else 0)
       ++ " keywords matched").

(** [# final polish] and the returned tuple (lines 143-150) *)
Definition final_polish (l : locals) (reasoning : string) : Result :=
  let l' :=
    if score l >=? 8 then
      add_strength ("Good answer " ++ Str.em_dash ++ " clear and thorough") l
    else if score l >=? 5 then
      add_strength
        "Decent answer; with room to add more specifics or examples" l
    else l in
  {| res_score := score l';
     res_reason :=
       "Score: " ++ Str.of_int (score l') ++ "/10. " ++ reasoning;
     res_strengths := strengths l';
     res_weaknesses := weaknesses l';
     res_tips := tips l' |}.

(** The result of the first [return] (line 59) *)
Definition no_answer : Result :=
  {| res_score := 0;
     res_reason := "No answer provided.";
     res_strengths := [];
     res_weaknesses := ["No response."];
     res_tips :=
       ["Try to answer the question; use STAR for behavioral answers or outline steps for technical ones."] |}.

(** The branch the question's type selects *)
Definition branch (question : Question) (answer_text : string)
  : Py.M (locals * string) :=
  let qtype := get (q_type question) "technical" in
  let keywords := get (q_keywords question) [] in
  let explanation := get (q_explanation question) "" in
  if String.eqb qtype "technical" then
    technical_branch keywords explanation answer_text
  else if String.eqb qtype "behavioral" then
    behavioral_branch answer_text
  else
    scenario_branch keywords answer_text.

Definition evaluate_answer (question : Question) (answer_text : string)
  : Py.M Result :=
  if negb (str_truthy answer_text) then Py.ok no_answer
  else
    lr <- branch question answer_text ;;
    Py.ok (final_polish (fst lr) (snd lr)).

(** ** The keyword-derived component of the technical score

    [coverage = matched / len(keywords); score = round(coverage * 8)]
    (lines 78-79), as a function of the two counts. *)
Definition keyword_score (matched total : Z) : Py.M Z :=
  coverage <- Num.truediv matched total ;;
  Py.ok (Num.round (coverage * 8)%Q).

(** ** Sample questions *)

Definition question_of
  (qtype : option string) (keywords : option (list string))
  (explanation : option string) : Question :=
  {| q_id := None; q_question := None; q_type := qtype;
     q_difficulty := None; q_keywords := keywords;
     q_explanation := explanation; q_references := None |}.

Definition cia_question : Question :=
  question_of (Some "technical")
    (Some ["confidentiality"; "integrity"; "availability"])
    (Some "CIA triad...").

Definition cia_answer : string :=
  "Confidentiality, integrity and availability".

Definition behavioral_question : Question :=
  question_of (Some "behavioral") None None.

Definition scenario_question : Question :=
  question_of (Some "scenario") (Some ["contain"; "isolate"]) None.

Definition bare_technical_question : Question :=
  question_of None None None.

(** ** The console, the session log and the caller's exceptions

    [stdin] holds the lines [input()] has still to return, each without its
    line feed; at the end of the list [input()] raises [EOFError].
    [stdout] is the list of the texts written, one for each call of [print]
    (with the line feed [print] adds) and one for each prompt of [input].
    [session_log] is the content of [session_log.txt], one entry for each
    write. *)

Module Sys.

Inductive exn : Type :=
| EOFError
| KeyError (key : string)
| Raised (e : Py.exn).

Record World : Type := {
  stdin : list string;
  stdout : list string;
  session_log : list string
}.

Definition write (text : string) (w : World) : World :=
  {| stdin := stdin w; stdout := stdout w ++ [text];
     session_log := session_log w |}.

(** [print(text)] *)
Definition print (text : string) (w : World) : World :=
  write (text ++ Str.nl) w.

Definition set_stdin (lines : list string) (w : World) : World :=
  {| stdin := lines; stdout := stdout w; session_log := session_log w |}.

(** [input(prompt)]: the prompt is written, then a line is read. *)
Definition input (prompt : string) (w : World) : (exn + string) * World :=
  let w1 := match prompt with
            | EmptyString => w
            | _ => write prompt w
            end in
  match stdin w1 with
  | [] => (inl EOFError, w1)
  | line :: rest => (inr line, set_stdin rest w1)
  end.

End Sys.

(** ** [log_session] *)

Definition log_session (entry : string) (w : Sys.World) : Sys.World :=
  {| Sys.stdin := Sys.stdin w; Sys.stdout := Sys.stdout w;
     Sys.session_log := Sys.session_log w ++ [entry ++ Str.nl] |}.

(** ** [get_multiline_input] *)

(** The loop [while True] (lines 44-52): [input()] has no prompt, the end of
    the input and a blank line both leave the loop, and the blank line is
    consumed.  The result is [lines] and the input that is left. *)
Fixpoint read_answer_lines (stdin lines : list string)
  : list string * list string :=
  match stdin with
  | [] => (lines, [])
  | line :: rest =>
      if String.eqb (Str.strip line) "" then (lines, rest)
      else read_answer_lines rest (lines ++ [line])
  end.

Definition default_prompt : string :=
  "Your answer (end with a single blank line):".

Definition get_multiline_input (prompt : string) (w : Sys.World)
  : string * Sys.World :=
  let w1 := Sys.print prompt w in
  let read := read_answer_lines (Sys.stdin w1) [] in
  (Str.strip (Str.join Str.nl (fst read)), Sys.set_stdin (snd read) w1).

(** A line is blank when [line.strip() == ""], that is when it holds white
    space only. *)
Definition blank (line : string) : Prop := Str.all_space line = true.
Definition not_blank (line : string) : Prop := Str.all_space line = false.

Definition world_of (lines : list string) : Sys.World :=
  {| Sys.stdin := lines; Sys.stdout := []; Sys.session_log := [] |}.

(** ** [choose_questions] *)

(** The comprehension
    [[q for q in questions if q["difficulty"].lower() == difficulty.lower()]];
    the subscript raises [KeyError] on a question without the key. *)
Fixpoint filter_difficulty (questions : list Question) (difficulty : string)
  : Sys.exn + list Question :=
  match questions with
  | [] => inr []
  | q :: rest =>
      match q_difficulty q with
      | None => inl (Sys.KeyError "difficulty")
      | Some d =>
          match filter_difficulty rest difficulty with
          | inl e => inl e
          | inr pool =>
              inr (if String.eqb (Str.lower d) (Str.lower difficulty)
                   then q :: pool else pool)
          end
      end
  end.

Section Choose.

(** The generator of [random]: [random.shuffle] permutes a list in place
    from the state of the generator, and leaves a new state. *)
Variable rng : Type.
Variable shuffle : rng -> list Question -> list Question * rng.

(** What [choose_questions] leaves: the list it returns, the content of
    the caller's list [questions] afterwards (when no question has the
    difficulty, [pool] is that very list and [random.shuffle] permutes it in
    place), and the state of the generator. *)
Record Chosen : Type := {
  chosen : list Question;
  questions_after : list Question;
  rng_after : rng
}.

Definition choose_questions
  (questions : list Question) (count : Z) (difficulty : string) (mix : bool)
  (g : rng) : Sys.exn + Chosen :=
  match filter_difficulty questions difficulty with
  | inl e => inl e
  | inr filtered =>
      if list_truthy filtered then
        let shuffled := if mix then shuffle g filtered else (filtered, g) in
        inr {| chosen := Str.slice_to (fst shuffled) count;
               questions_after := questions;
               rng_after := snd shuffled |}
      else
        let shuffled := if mix then shuffle g questions else (questions, g) in
        inr {| chosen := Str.slice_to (fst shuffled) count;
               questions_after := fst shuffled;
               rng_after := snd shuffled |}
  end.

End Choose.

Arguments chosen {rng} _.
Arguments questions_after {rng} _.
Arguments rng_after {rng} _.

(** ** [give_feedback] and [explain_concept] *)

(** [for s in items: print(f" - {s}")] *)
Definition print_items (items : list string) (w : Sys.World) : Sys.World :=
  fold_left (fun w s => Sys.print (" - " ++ s) w) items w.

Definition print_section (heading : string) (items : list string)
  (w : Sys.World) : Sys.World :=
  if list_truthy items then print_items items (Sys.print heading w) else w.

Definition give_feedback
  (score : Z) (strengths weaknesses tips : list string) (w : Sys.World)
  : Sys.World :=
  let w := Sys.print (Str.nl ++ "--- Feedback ---") w in
  let w := Sys.print ("Score: " ++ Str.of_int score ++ "/10") w in
  let w := print_section "Strengths:" strengths w in
  let w := print_section "Areas to improve:" weaknesses w in
  let w := print_section "Actionable tips:" tips w in
  Sys.print ("----------------" ++ Str.nl) w.

Definition explain_concept (question : Question) (w : Sys.World)
  : Sys.World :=
  let explanation := q_explanation question in
  let refs := get (q_references question) [] in
  let w :=
    match explanation with
    | Some (String c e) =>
        Sys.print (String c e)
          (Sys.print (Str.nl ++ "--- Explanation / Simplified ---") w)
    | _ =>
        Sys.print "No detailed explanation available for this question." w
    end in
  let w := print_section "References to look for (titles/topics):" refs w in
  Sys.print ("-------------------------------" ++ Str.nl) w.

(** ** Difficulties, and samples for the chooser *)

(** The test of the comprehension of [choose_questions] on a question that
    has the key *)
Definition has_difficulty (difficulty : string) (q : Question) : bool :=
  match q_difficulty q with
  | Some d => String.eqb (Str.lower d) (Str.lower difficulty)
  | None => false
  end.

(** The pool of [choose_questions]: the questions of the difficulty, or all
    of them when there is none *)
Definition candidates (questions : list Question) (difficulty : string)
  : list Question :=
  if list_truthy (filter (has_difficulty difficulty) questions)
  then filter (has_difficulty difficulty) questions
  else questions.

(** A generator that reverses the list, to run the chooser on samples *)
Definition reverse_shuffle (g : nat) (l : list Question)
  : list Question * nat :=
  (rev l, S g).

Definition graded (id difficulty : string) : Question :=
  {| q_id := Some id; q_question := Some "?"; q_type := None;
     q_difficulty := Some difficulty; q_keywords := None;
     q_explanation := None; q_references := None |}.

Definition sample_pool : list Question :=
  [graded "q1" "Basic"; graded "q2" "intermediate"; graded "q3" "BASIC";
   graded "q4" "Advanced"].

(** What the chooser leaves on the sample pool: one "basic" question with
    the reversing generator, and all but one question when the difficulty
    "expert" is that of no question and the count is -1. *)
Definition basic_choice : Chosen nat :=
  {| chosen := [graded "q3" "BASIC"];
     questions_after := sample_pool;
     rng_after := 1%nat |}.

Definition fallback_choice : Chosen nat :=
  {| chosen := [graded "q4" "Advanced"; graded "q3" "BASIC";
                graded "q2" "intermediate"];
     questions_after := rev sample_pool;
     rng_after := 1%nat |}.

(** The text [print(f" - {s}")] writes *)
Definition bullet (s : string) : string := (" - " ++ s) ++ Str.nl.

(** ** The web handlers

    [QUESTIONS_BY_ID = {q['id']: q for q in QUESTIONS}] of [webapp/app.py]
    and [webapp/server_no_flask.py]: a [dict] is the list of its items in
    the order of insertion; storing under a key that is there replaces the
    value in place.  The subscript [q['id']] raises [KeyError] on a question
    without an id.  The ids are strings. *)

Module Dict.

Definition t : Type := list (string * Question).

Fixpoint set (k : string) (v : Question) (d : t) : t :=
  match d with
  | [] => [(k, v)]
  | (k', v') :: rest =>
      if String.eqb k k' then (k', v) :: rest
      else (k', v') :: set k v rest
  end.

Fixpoint lookup (k : string) (d : t) : option Question :=
  match d with
  | [] => None
  | (k', v) :: rest => if String.eqb k k' then Some v else lookup k rest
  end.

End Dict.

Fixpoint index_by_id (questions : list Question) (d : Dict.t)
  : Sys.exn + Dict.t :=
  match questions with
  | [] => inr d
  | q :: rest =>
      match q_id q with
      | None => inl (Sys.KeyError "id")
      | Some k => index_by_id rest (Dict.set k q d)
      end
  end.

Definition questions_by_id (questions : list Question) : Sys.exn + Dict.t :=
  index_by_id questions [].

(** The body of a request to [/api/evaluate], a JSON object: each of the
    two keys is absent or holds a string. *)
Record Request : Type := {
  question_id : option string;
  answer : option string
}.

Inductive Response : Type :=
| Json200 (body : Result)
| Json400 (error : string).

(** [api_evaluate] of [app.py] and the [/api/evaluate] case of [do_POST]
    of [server_no_flask.py], from the parsed body on.  An exception of
    [evaluate_answer] would leave the handler. *)
Definition api_evaluate (by_id : Dict.t) (data : Request) : Py.M Response :=
  let qid := question_id data in
  let answer := get (answer data) "" in
  match qid with
  | None => Py.ok (Json400 "invalid question id")
  | Some k =>
      if negb (str_truthy k) then Py.ok (Json400 "invalid question id")
      else
        match Dict.lookup k by_id with
        | None => Py.ok (Json400 "invalid question id")
        | Some q =>
            r <- evaluate_answer q answer ;;
            Py.ok (Json200 r)
        end
  end.

(** The test [q['id'] == k] on a question that has an id *)
Definition has_id (k : string) (q : Question) : bool :=
  match q_id q with
  | Some k' => String.eqb k k'
  | None => false
  end.

Definition duplicated_pool : list Question :=
  [graded "q1" "Basic"; graded "q2" "Basic"; graded "q1" "Advanced"].

Definition duplicated_index : Dict.t :=
  [("q1", graded "q1" "Advanced"); ("q2", graded "q2" "Basic")].

Definition sample_request : Request :=
  {| question_id := Some "q1"; answer := Some "First isolate the host" |}.

(** ** The loop over the questions of [interactive_session] (lines 213-262) *)

(** [scores], [details] and [difficulty], the variables of the session that
    the loop updates *)
Record Session : Type := {
  s_scores : list Z;
  s_details : list (Question * Z * string);
  s_difficulty : string
}.

(** How the body of the [for] loop ends: at its end or by [continue], or by
    [break] *)
Inductive control : Type :=
| Next
| Break.

Definition tab : string := String (ascii_of_N 9) EmptyString.

(** [statistics.mean(scores) if scores else 0] *)
Definition sum_of (scores : list Z) : Z := fold_left Z.add scores 0.

Definition average (scores : list Z) : Q :=
  if list_truthy scores
  then (inject_Z (sum_of scores) / inject_Z (Str.len scores))%Q
  else 0%Q.

(** The adaptive rule (lines 242-248) *)
Definition adapt (scores : list Z) (difficulty : string) (w : Sys.World)
  : string * Sys.World :=
  let avg := average scores in
  if Qle_bool 8 avg && negb (String.eqb difficulty "Advanced") then
    ("Advanced",
     Sys.print
       "Adaptive hint: raising difficulty to Advanced based on strong performance."
       w)
  else if Qle_bool avg 3 && negb (String.eqb difficulty "Basic") then
    ("Basic",
     Sys.print
       "Adaptive hint: lowering difficulty to Basic to focus on fundamentals."
       w)
  else (difficulty, w).

Definition follow_up_prompt : string :=
  "Type 'explain' for a concept explanation, 'continue' for next question, or 'quit' to finish: ".

(** The loop [while True] of the follow-up prompt (lines 251-262), on the
    lines [lines] that the input still holds.  Its [break]s leave this loop
    only: the assignment [i = len(pool)] of the 'quit' case is undone by the
    [for] statement, which binds [i] again. *)
Fixpoint follow_up_from (q : Question) (lines : list string) (w : Sys.World)
  : (Sys.exn + unit) * Sys.World :=
  match lines with
  | [] => (inl Sys.EOFError, Sys.write follow_up_prompt w)
  | line :: rest =>
      let w1 := Sys.set_stdin rest (Sys.write follow_up_prompt w) in
      let nxt := Str.lower (Str.strip line) in
      if String.eqb nxt "continue" || String.eqb nxt "c" || String.eqb nxt ""
      then (inr tt, w1)
      else if String.eqb nxt "explain" then
        follow_up_from q rest (explain_concept q w1)
      else if String.eqb nxt "quit" then
        (inr tt, Sys.print "Ending session." w1)
      else
        follow_up_from q rest
          (Sys.print "Unknown command. Use 'explain', 'continue', or 'quit'."
             w1)
  end.

Definition follow_up (q : Question) (w : Sys.World)
  : (Sys.exn + unit) * Sys.World :=
  follow_up_from q (Sys.stdin w) w.

Section Loop.

(** [str.title] and the clock are left open: [title s] is [s.title()], and
    [timestamp w] is the text of [datetime.datetime.utcnow().isoformat()]
    when it is called in the world [w]. *)
Variable title : string -> string.
Variable timestamp : Sys.World -> string.

Definition question_header (total i : Z) (q : Question) : string :=
  Str.nl ++ "Question " ++ Str.of_int i ++ "/" ++ Str.of_int total ++ " "
    ++ Str.em_dash ++ " (" ++ title (get (q_type q) "technical") ++ ", "
    ++ get (q_difficulty q) "None" ++ ")".

Definition commands_help : string :=
  "(Commands while answering: type 'explain' to see a simplified explanation after answering, 'skip' to skip, 'quit' to finish session.)".

Definition log_entry (ts difficulty : string) (q : Question) (score : Z)
  (reason : string) : string :=
  ts ++ tab ++ difficulty ++ tab ++ "Q:" ++ get (q_id q) "None" ++ tab
    ++ "Score:" ++ Str.of_int score ++ tab ++ "Reason:" ++ reason.

(** What follows [evaluate_answer] in the body (lines 232-262) *)
Definition record_answer (q : Question) (r : Result) (st : Session)
  (w : Sys.World) : (Sys.exn + (control * Session)) * Sys.World :=
  let w := give_feedback (res_score r) (res_strengths r) (res_weaknesses r)
             (res_tips r) w in
  let scores := (s_scores st ++ [res_score r])%list in
  let details := (s_details st ++ [(q, res_score r, res_reason r)])%list in
  let ts := timestamp w in
  let w := log_session
             (log_entry ts (s_difficulty st) q (res_score r) (res_reason r))
             w in
  let adapted := adapt scores (s_difficulty st) w in
  let st' := {| s_scores := scores; s_details := details;
                s_difficulty := fst adapted |} in
  match follow_up q (snd adapted) with
  | (inl e, w') => (inl e, w')
  | (inr _, w') => (inr (Next, st'), w')
  end.

(** The body of the [for] loop for the question [q], the [i]-th of
    [total] *)
Definition ask (total i : Z) (q : Question) (st : Session) (w : Sys.World)
  : (Sys.exn + (control * Session)) * Sys.World :=
  let w := Sys.print (question_header total i q) w in
  match q_question q with
  | None => (inl (Sys.KeyError "question"), w)
  | Some text =>
      let w := Sys.print commands_help (Sys.print text w) in
      let typed := get_multiline_input default_prompt w in
      let user_ans := fst typed in
      let w := snd typed in
      if String.eqb (Str.lower (Str.strip user_ans)) "quit" then
        (inr (Break, st), Sys.print "Ending session early." w)
      else if String.eqb (Str.lower (Str.strip user_ans)) "skip" then
        (inr (Next,
              {| s_scores := s_scores st ++ [0];
                 s_details := s_details st ++ [(q, 0, "skipped")];
                 s_difficulty := s_difficulty st |}),
         Sys.print "Skipped." w)
      else
        match evaluate_answer q user_ans with
        | inl e => (inl (Sys.Raised e), w)
        | inr r => record_answer q r st w
        end
  end.

(** [for i, q in enumerate(pool, start=1)], from the [i]-th question on *)
Fixpoint ask_from (total i : Z) (pool : list Question) (st : Session)
  (w : Sys.World) : (Sys.exn + Session) * Sys.World :=
  match pool with
  | [] => (inr st, w)
  | q :: rest =>
      match ask total i q st w with
      | (inl e, w') => (inl e, w')
      | (inr (Break, st'), w') => (inr st', w')
      | (inr (Next, st'), w') => ask_from total (i + 1) rest st' w'
      end
  end.

Definition ask_questions (pool : list Question) (difficulty : string)
  (w : Sys.World) : (Sys.exn + Session) * Sys.World :=
  ask_from (Str.len pool) 1 pool
    {| s_scores := []; s_details := []; s_difficulty := difficulty |} w.

End Loop.

Definition is_break (c : control) : bool :=
  match c with
  | Break => true
  | Next => false
  end.

(** An entry of [details] that stands for an evaluated answer, not a
    skipped question *)
Definition evaluated (d : Question * Z * string) : bool :=
  negb (String.eqb (snd d) "skipped").

Definition score_of (d : Question * Z * string) : Z := snd (fst d).
Definition question_in (d : Question * Z * string) : Question := fst (fst d).

(** What a run of the loop shows apart from the texts it writes: the
    exception or the scores and details it ends with, and the input it
    leaves. *)
Definition outcome (run : (Sys.exn + Session) * Sys.World)
  : (Sys.exn + list Z * list (Question * Z * string)) * list string :=
  (match fst run with
   | inl e => inl e
   | inr st => inr (s_scores st, s_details st)
   end,
   Sys.stdin (snd run)).

Definition turn_outcome (turn : (Sys.exn + control * Session) * Sys.World)
  : (Sys.exn + control * list Z * list (Question * Z * string))
    * list string :=
  (match fst turn with
   | inl e => inl e
   | inr (c, st) => inr (c, s_scores st, s_details st)
   end,
   Sys.stdin (snd turn)).

(** Samples for the loop: a title function and a clock to run it with, three
    questions, and an input in which "quit" is typed at the follow-up prompt
    of the first question, the second question is skipped and the third is
    answered by "quit". *)
Definition plain_title (s : string) : string := s.
Definition fixed_time (w : Sys.World) : string := "2024-01-01T00:00:00".

Definition asked (id : string) : Question :=
  {| q_id := Some id; q_question := Some "What do you do first?";
     q_type := Some "scenario"; q_difficulty := Some "Basic";
     q_keywords := Some ["isolate"]; q_explanation := None;
     q_references := None |}.

Definition asked_pool : list Question := [asked "s1"; asked "s2"; asked "s3"].

Definition start : Session :=
  {| s_scores := []; s_details := []; s_difficulty := "Intermediate" |}.

Definition typed_lines : list string :=
  ["First isolate the host"; ""; "quit"; "skip"; ""; "quit"; ""].

Definition first_turn : (Sys.exn + control * Session) * Sys.World := Eval cbv in
    ask plain_title fixed_time 3 1 (asked "s1") start (world_of typed_lines).

Definition state_after_first_turn : Session :=
  match fst first_turn with
  | inr (_, st) => st
  | inl _ => start
  end.

Definition whole_run : (Sys.exn + Session) * Sys.World := Eval cbv in
    ask_questions plain_title fixed_time asked_pool "Intermediate"
      (world_of typed_lines).

Definition state_after_run : Session :=
  match fst whole_run with
  | inr st => st
  | inl _ => start
  end.

Definition cut_off_turn : (Sys.exn + control * Session) * Sys.World := Eval cbv in
    ask plain_title fixed_time 3 1 (asked "s1") start
      (world_of ["First isolate the host"]).

(** ** The choice of the difficulty in [interactive_session] (lines 197-205) *)

Definition difficulty_prompt : string :=
  "Choose difficulty (Basic / Intermediate / Advanced) [Intermediate]: ".

Section Difficulty.

(** [title s] is [s.title()] *)
Variable title : string -> string.

(** The loop [while True], on the lines [lines] that the input still
    holds; [EOFError] leaves the function. *)
Fixpoint choose_difficulty_from (lines : list string) (w : Sys.World)
  : (Sys.exn + string) * Sys.World :=
  match lines with
  | [] => (inl Sys.EOFError, Sys.write difficulty_prompt w)
  | line :: rest =>
      let w1 := Sys.set_stdin rest (Sys.write difficulty_prompt w) in
      let d := Str.strip line in
      if String.eqb d "" then (inr "Intermediate", w1)
      else if String.eqb (Str.lower d) "basic"
              || String.eqb (Str.lower d) "intermediate"
              || String.eqb (Str.lower d) "advanced"
      then (inr (title d), w1)
      else
        choose_difficulty_from rest
          (Sys.print "Please enter Basic, Intermediate, or Advanced." w1)
  end.

Definition choose_difficulty (w : Sys.World)
  : (Sys.exn + string) * Sys.World :=
  choose_difficulty_from (Sys.stdin w) w.

End Difficulty.

(** A title function for the samples: the first character in upper case,
    the others in lower case, which is what [str.title] gives on a word of
    the letters a-z and A-Z. *)
Definition capitalize (s : string) : string :=
  match s with
  | EmptyString => EmptyString
  | String c s' => String (Char.upper_ascii c) (Str.lower s')
  end.

(** The two strengths of the closing rule of [evaluate_answer] *)
Definition good_answer : string :=
  "Good answer " ++ Str.em_dash ++ " clear and thorough".

Definition decent_answer : string :=
  "Decent answer; with room to add more specifics or examples".

Definition cia_result : Result := Eval cbv in
    match evaluate_answer cia_question cia_answer with
    | inr r => r
    | inl _ => no_answer
    end.

(** ** The console as lines of text *)

(** The text that a list of writes leaves on the console *)
Definition stream (writes : list string) : string :=
  fold_right append EmptyString writes.

Definition is_line_feed (c : ascii) : bool := Char.is_code 10 c.

(** No character of [s] is a line feed. *)
Fixpoint one_line (s : string) : bool :=
  match s with
  | EmptyString => true
  | String c s' => negb (is_line_feed c) && one_line s'
  end.

(** The lines of a text: the pieces that a line feed ends, without the line
    feed, and the piece after the last line feed when it is not empty. *)
Fixpoint lines_of (s : string) : list string :=
  match s with
  | EmptyString => []
  | String c s' =>
      if is_line_feed c then EmptyString :: lines_of s'
      else
        match lines_of s' with
        | [] => [String c EmptyString]
        | l :: ls => String c l :: ls
        end
  end.

(** What [print_section] writes *)
Definition section_writes (heading : string) (items : list string)
  : list string :=
  if list_truthy items then (heading ++ Str.nl)%string :: map bullet items
  else [].

(** What [give_feedback] writes *)
Definition feedback_writes
  (score : Z) (strengths weaknesses tips : list string) : list string :=
  ([((Str.nl ++ "--- Feedback ---") ++ Str.nl)%string;
    (("Score: " ++ Str.of_int score ++ "/10") ++ Str.nl)%string]
   ++ section_writes "Strengths:" strengths
   ++ section_writes "Areas to improve:" weaknesses
   ++ section_writes "Actionable tips:" tips
   ++ [(("----------------" ++ Str.nl) ++ Str.nl)%string])%list.

(** ** [evaluate_answer] on the state of the process

    A second embedding of [evaluate_answer] (lines 56-150), statement by
    statement, in which the state of the Python process is explicit.  The
    state holds the objects of the heap (the lists that the function builds
    with [[]] and changes in place with [append] are objects, named by their
    address), the state of the generator of [random], and the console with
    the session log.  The function returns the addresses of the three lists
    of its result.  The question and the integer and string variables are
    values: the function only reads the first and rebinds the others. *)

Module Mem.

Record Process (G : Type) : Type := {
  heap : list (list string);
  generator : G;
  console : Sys.World
}.

Arguments heap {G} _.
Arguments generator {G} _.
Arguments console {G} _.

Definition Proc (G A : Type) : Type :=
  Process G -> (Py.exn + A) * Process G.

Definition ret {G A : Type} (a : A) : Proc G A := fun p => (inr a, p).

Definition bind {G A B : Type} (m : Proc G A) (k : A -> Proc G B)
  : Proc G B :=
  fun p =>
    match m p with
    | (inl e, p') => (inl e, p')
    | (inr a, p') => k a p'
    end.

(** An operation that may raise and touches no state *)
Definition lift {G A : Type} (m : Py.M A) : Proc G A := fun p => (m, p).

Definition set_heap {G : Type} (h : list (list string)) (p : Process G)
  : Process G :=
  {| heap := h; generator := generator p; console := console p |}.

(** A list display [[x, ...]]: a new object, after the ones there are *)
Definition new_list {G : Type} (items : list string) : Proc G nat :=
  fun p => (inr (List.length (heap p)), set_heap (heap p ++ [items]) p).

Fixpoint update (a : nat) (f : list string -> list string)
  (h : list (list string)) : list (list string) :=
  match h, a with
  | [], _ => []
  | l :: h', O => f l :: h'
  | l :: h', S a' => l :: update a' f h'
  end.

(** [lst.append(x)] on the list at the address [a] *)
Definition append {G : Type} (a : nat) (x : string) : Proc G unit :=
  fun p => (inr tt, set_heap (update a (fun l => l ++ [x])%list (heap p)) p).

(** The items of the list at the address [a] *)
Definition contents {G : Type} (a : nat) (p : Process G) : list string :=
  nth a (heap p) [].

Definition read {G : Type} (a : nat) : Proc G (list string) :=
  fun p => (inr (contents a p), p).

End Mem.

Notation "x <~ m ;; k" := (Mem.bind m (fun x => k))
  (at level 61, m at next level, right associativity).

Section OnTheProcess.

Variable G : Type.

(** The addresses of [strengths], [weaknesses], [tips] and
    [reasoning_parts] *)
Record Lists : Type := {
  at_strengths : nat;
  at_weaknesses : nat;
  at_tips : nat;
  at_reasoning_parts : nat
}.

(** [if qtype == "technical":] (lines 71-105); the result is [score] and
    [reasoning]. *)
Definition technical_on (ls : Lists)
  (keywords : list string) (explanation answer_text : string)
  : Mem.Proc G (Z * string) :=
  score <~ (if list_truthy keywords then
              let matched := count_matched keywords (Str.lower answer_text) in
              coverage <~ Mem.lift
                            (Num.truediv matched (Str.len keywords)) ;;
              let score := Num.round (coverage * 8)%Q in
              _ <~ Mem.append (at_reasoning_parts ls)
                     ("Keyword coverage: " ++ Str.of_int matched ++ "/"
                        ++ Str.of_int (Str.len keywords)) ;;
              _ <~ (if Num.gt coverage (7 # 10) then
                      Mem.append (at_strengths ls) "Covered most key concepts"
                    else
                      _ <~ Mem.append (at_weaknesses ls)
                             "Missed some important concepts" ;;
                      Mem.append (at_tips ls)
                        "Make sure to mention the core terms and explain how they fit together. Consider a short definition followed by an example.") ;;
              Mem.ret score
            else
              Mem.ret (Z.min 6 (Str.len (Str.split answer_text) / 20))) ;;
  let word_count := Str.len (Str.split answer_text) in
  score <~ (if word_count >? 120 then
              let score := Z.min 10 (score + 1) in
              _ <~ Mem.append (at_strengths ls) "Provided detailed answer" ;;
              Mem.ret score
            else if word_count <? 30 then
              let score := Z.max 0 (score - 1) in
              _ <~ Mem.append (at_weaknesses ls)
                     "Answer was short; expand with steps or examples" ;;
              Mem.ret score
            else Mem.ret score) ;;
  let score := Z.max 0 (Z.min 10 score) in
  parts <~ Mem.read (at_reasoning_parts ls) ;;
  let reasoning :=
    if list_truthy parts then Str.join "; " parts
    else "Evaluated technical response by heuristics." in
  _ <~ (if str_truthy explanation && (score <? 6) then
          Mem.append (at_tips ls) ("Review the key concept: " ++ explanation)
        else Mem.ret tt) ;;
  Mem.ret (score, reasoning).

(** [elif qtype == "behavioral":] (lines 107-124) *)
Definition behavioral_on (ls : Lists) (answer_text : string)
  : Mem.Proc G (Z * string) :=
  let ans_lower := Str.lower answer_text in
  let star_hits := count_star_hits ans_lower in
  let score := Z.min 10 (star_hits * 2) in
  score <~ (if Re.search metric_pattern ans_lower then
              let score := Z.min 10 (score + 2) in
              _ <~ Mem.append (at_strengths ls)
                     "Included measurable results or metrics" ;;
              Mem.ret score
            else Mem.ret score) ;;
  _ <~ (if star_hits >=? 3 then
          Mem.append (at_strengths ls)
            ("Clear structure " ++ Str.em_dash
               ++ " covers multiple STAR elements")
        else
          _ <~ Mem.append (at_weaknesses ls)
                 "Missing parts of the STAR structure (Situation, Task, Action, Result)" ;;
          Mem.append (at_tips ls)
            "Use the STAR method: briefly state the Situation and Task, describe Actions you took, and end with the Result (preferably quantifiable).") ;;
  Mem.ret (score, "Detected STAR-like keywords: " ++ Str.of_int star_hits).

(** [else:] (lines 125-141) *)
Definition scenario_on (ls : Lists) (keywords : list string)
  (answer_text : string) : Mem.Proc G (Z * string) :=
  let ans_lower := Str.lower answer_text in
  let matched := count_matched keywords ans_lower in
  coverage <~ (if list_truthy keywords then
                 Mem.lift (Num.truediv matched (Str.len keywords))
               else Mem.ret 0%Q) ;;
  let score := Num.round (coverage * 7)%Q in
  score <~ (if Str.contains "step" ans_lower || Str.contains "first" ans_lower
               || Str.contains "then" ans_lower then
              let score := score + 2 in
              _ <~ Mem.append (at_strengths ls)
                     "Provided a stepwise approach" ;;
              Mem.ret score
            else Mem.ret score) ;;
  _ <~ (if Num.lt coverage (1 # 2) then
          _ <~ Mem.append (at_weaknesses ls)
                 "Missed some technical or process-oriented items" ;;
          Mem.append (at_tips ls)
            "Outline a clear step-by-step plan and mention key controls or mitigations."
        else Mem.ret tt) ;;
  Mem.ret
    (score,
     "Scenario heuristic: " ++ Str.of_int matched ++ "/"
       ++ Str.of_int (if list_truthy keywords then Str.len keywords else 0)
       ++ " keywords matched").

(** What a call returns: the score, the reason and the addresses of the
    lists [strengths], [weaknesses] and [tips] *)
Definition Returned : Type := (Z * string * nat * nat * nat)%type.

Definition evaluate_answer_on (question : Question) (answer_text : string)
  : Mem.Proc G Returned :=
  if negb (str_truthy answer_text) then
    strengths <~ Mem.new_list [] ;;
    weaknesses <~ Mem.new_list ["No response."] ;;
    tips <~ Mem.new_list
              ["Try to answer the question; use STAR for behavioral answers or outline steps for technical ones."] ;;
    Mem.ret (0, "No answer provided.", strengths, weaknesses, tips)
  else
    let qtype := get (q_type question) "technical" in
    let keywords := get (q_keywords question) [] in
    let explanation := get (q_explanation question) "" in
    strengths <~ Mem.new_list [] ;;
    weaknesses <~ Mem.new_list [] ;;
    tips <~ Mem.new_list [] ;;
    reasoning_parts <~ Mem.new_list [] ;;
    let ls := {| at_strengths := strengths; at_weaknesses := weaknesses;
                 at_tips := tips; at_reasoning_parts := reasoning_parts |} in
    sr <~ (if String.eqb qtype "technical" then
             technical_on ls keywords explanation answer_text
           else if String.eqb qtype "behavioral" then
             behavioral_on ls answer_text
           else
             scenario_on ls keywords answer_text) ;;
    let score := fst sr in
    let reasoning := snd sr in
    _ <~ (if score >=? 8 then
            Mem.append strengths
              ("Good answer " ++ Str.em_dash ++ " clear and thorough")
          else if score >=? 5 then
            Mem.append strengths
              "Decent answer; with room to add more specifics or examples"
          else Mem.ret tt) ;;
    Mem.ret
      (score, "Score: " ++ Str.of_int score ++ "/10. " ++ reasoning,
       strengths, weaknesses, tips).

(** The result of a call as the caller sees it: the items of the three
    lists are read in the state the call leaves. *)
Definition observe (out : (Py.exn + Returned) * Mem.Process G)
  : Py.M Result :=
  match fst out with
  | inl e => inl e
  | inr (score, reason, strengths, weaknesses, tips) =>
      inr {| res_score := score;
             res_reason := reason;
             res_strengths := Mem.contents strengths (snd out);
             res_weaknesses := Mem.contents weaknesses (snd out);
             res_tips := Mem.contents tips (snd out) |}
  end.

End OnTheProcess.

Arguments observe {G} _.

(** The addresses of four lists made one after the other from the address
    [n] on *)
Definition four_from (n : nat) : Lists :=
  {| at_strengths := n; at_weaknesses := n + 1; at_tips := n + 2;
     at_reasoning_parts := n + 3 |}.

(** The four lists of the local variables [l], as objects *)
Definition objects_of (l : locals) : list (list string) :=
  [strengths l; weaknesses l; tips l; reasoning_parts l].

(** The addresses of the lists that a call returns *)
Definition addresses_of {G : Type}
  (out : (Py.exn + Returned) * Mem.Process G) : list nat :=
  match fst out with
  | inl _ => []
  | inr (_, _, strengths, weaknesses, tips) => [strengths; weaknesses; tips]
  end.

(** The local variables after the closing rule (lines 144-147) *)
Definition polished (l : locals) : locals :=
  if score l >=? 8 then
    add_strength ("Good answer " ++ Str.em_dash ++ " clear and thorough") l
  else if score l >=? 5 then
    add_strength "Decent answer; with room to add more specifics or examples"
      l
  else l.

(** Two states of a process to run a call in: an empty one, and one with
    objects on the heap, another state of the generator, and text on the
    console and in the log. *)
Definition fresh_process : Mem.Process nat :=
  {| Mem.heap := []; Mem.generator := 0%nat; Mem.console := world_of [] |}.

Definition busy_process : Mem.Process nat :=
  {| Mem.heap := [["Covered most key concepts"]; []; ["left over"]];
     Mem.generator := 42%nat;
     Mem.console :=
       {| Sys.stdin := ["pending"]; Sys.stdout := ["Welcome"];
          Sys.session_log := ["an earlier line"] |} |}.

(** * Checks of the primitives on small inputs *)

Example lower_mixed : Str.lower "Confidentiality, TLS" = "confidentiality, tls".
Proof. reflexivity. Qed.

Example split_words :
  Str.split "  Confidentiality, integrity  and availability " =
  ["Confidentiality,"; "integrity"; "and"; "availability"].
Proof. reflexivity. Qed.

Example split_blank : Str.split "   " = [].
Proof. reflexivity. Qed.

Example contains_mid : Str.contains "tegr" "integrity" = true.
Proof. reflexivity. Qed.

Example contains_empty : Str.contains "" "" = true.
Proof. reflexivity. Qed.

Example contains_not : Str.contains "led" "lead" = false.
Proof. reflexivity. Qed.

Example of_int_zero : Str.of_int 0 = "0".
Proof. reflexivity. Qed.

Example of_int_ten : Str.of_int 10 = "10".
Proof. reflexivity. Qed.

Example round_half_down : Num.round (1 # 2) = 0.
Proof. reflexivity. Qed.

Example round_half_up : Num.round (3 # 2) = 2.
Proof. reflexivity. Qed.

Example round_five_halves : Num.round (5 # 2) = 2.
Proof. reflexivity. Qed.

Example round_two_thirds_of_eight : Num.round ((2 # 3) * 8) = 5.
Proof. reflexivity. Qed.

Example search_metric_verb : Re.search metric_pattern "we reduced costs" = true.
Proof. reflexivity. Qed.

Example search_metric_duration : Re.search metric_pattern "in 3   weeks" = true.
Proof. reflexivity. Qed.

Example search_metric_glued : Re.search metric_pattern "a20 days" = false.
Proof. reflexivity. Qed.

Example search_metric_percent_then_letter :
  Re.search metric_pattern "20%x" = true.
Proof. reflexivity. Qed.

(** * Counting loops *)

Section Counting.

Variable hit : string -> bool.

Let step (n : Z) (kw : string) : Z := if hit kw then n + 1 else n.

Lemma count_from_bounds (l : list string) (n0 : Z) :
  n0 <= fold_left step l n0 <= n0 + Str.len l.
Proof.
  revert n0; induction l as [|kw l IH]; intros n0.
  - unfold Str.len; simpl; lia.
  - simpl. specialize (IH (step n0 kw)).
    unfold Str.len in *. cbn [List.length]. unfold step in *.
    destruct (hit kw); lia.
Qed.

End Counting.

Lemma count_matched_bounds (keywords : list string) (ans_lower : string) :
  0 <= count_matched keywords ans_lower <= Str.len keywords.
Proof.
  unfold count_matched.
  apply (count_from_bounds
           (fun kw => Str.contains (Str.lower kw) ans_lower) keywords 0).
Qed.

Lemma count_star_hits_bounds (ans_lower : string) :
  0 <= count_star_hits ans_lower <= 10.
Proof.
  unfold count_star_hits.
  apply (count_from_bounds (fun kw => Str.contains kw ans_lower)
           star_markers 0).
Qed.

Lemma len_pos {A : Type} (l : list A) : list_truthy l = true -> 0 < Str.len l.
Proof.
  destruct l; simpl; [discriminate|]. intros _. unfold Str.len. cbn [List.length]. lia.
Qed.

Lemma len_nonneg {A : Type} (l : list A) : 0 <= Str.len l.
Proof. unfold Str.len. lia. Qed.

(** * Rounding *)

Lemma round_between (x : Q) : Qfloor x <= Num.round x <= Qfloor x + 1.
Proof.
  unfold Num.round.
  destruct (x - inject_Z (Qfloor x) ?= 1 # 2)%Q; [|lia|lia].
  destruct (Z.even (Qfloor x)); lia.
Qed.

Lemma round_inject (k : Z) : Num.round (inject_Z k) = k.
Proof.
  unfold Num.round. rewrite Qfloor_Z.
  destruct (Qcompare_spec (inject_Z k - inject_Z k) (1 # 2)) as [H|H|H];
    [exfalso; lra | reflexivity | exfalso; lra].
Qed.

Lemma round_le (x y : Q) : (x <= y)%Q -> Num.round x <= Num.round y.
Proof.
  intros Hxy.
  pose proof (Qfloor_resp_le x y Hxy) as Hf.
  destruct (Z.eq_dec (Qfloor x) (Qfloor y)) as [E|N].
  - unfold Num.round. rewrite <- E.
    destruct (Qcompare_spec (x - inject_Z (Qfloor x)) (1 # 2)) as [Hx|Hx|Hx];
      destruct (Qcompare_spec (y - inject_Z (Qfloor x)) (1 # 2)) as [Hy|Hy|Hy];
      try lia; try (exfalso; lra);
      destruct (Z.even (Qfloor x)); lia.
  - pose proof (round_between x). pose proof (round_between y). lia.
Qed.

Lemma round_range (x : Q) (k : Z) :
  (0 <= x)%Q -> (x <= inject_Z k)%Q -> 0 <= Num.round x <= k.
Proof.
  intros H0 Hk. split.
  - rewrite <- (round_inject 0). apply round_le. exact H0.
  - rewrite <- (round_inject k). apply round_le. exact Hk.
Qed.

(** * Division *)

Lemma truediv_ok (a b : Z) :
  b <> 0 -> Num.truediv a b = Py.ok (inject_Z a / inject_Z b)%Q.
Proof.
  intros Hb. unfold Num.truediv.
  destruct (Z.eqb_spec b 0); [contradiction|reflexivity].
Qed.

Lemma inject_pos (b : Z) : 0 < b -> (0 < inject_Z b)%Q.
Proof. intros Hb. unfold Qlt. simpl. lia. Qed.

Lemma inject_nonneg (a : Z) : 0 <= a -> (0 <= inject_Z a)%Q.
Proof. intros Ha. unfold Qle. simpl. lia. Qed.

Lemma fraction_le (a a' b : Z) :
  0 < b -> a <= a' -> (inject_Z a / inject_Z b <= inject_Z a' / inject_Z b)%Q.
Proof.
  intros Hb Ha.
  pose proof (inject_pos b Hb) as Hq.
  apply Qle_shift_div_l; [exact Hq|].
  unfold Qdiv. rewrite <- Qmult_assoc, (Qmult_comm (/ inject_Z b)).
  rewrite Qmult_inv_r by lra. rewrite Qmult_1_r.
  rewrite <- Zle_Qle. exact Ha.
Qed.

Lemma fraction_unit (a b : Z) :
  0 < b -> 0 <= a <= b ->
  (0 <= inject_Z a / inject_Z b)%Q /\ (inject_Z a / inject_Z b <= 1)%Q.
Proof.
  intros Hb [Ha Hab].
  pose proof (inject_pos b Hb) as Hq.
  split.
  - apply Qle_shift_div_l; [exact Hq|].
    rewrite Qmult_0_l. apply inject_nonneg. exact Ha.
  - apply Qle_shift_div_r; [exact Hq|].
    rewrite Qmult_1_l. rewrite <- Zle_Qle. exact Hab.
Qed.

(** * The branches return, and what they leave in [score] *)

Lemma technical_branch_returns
  (keywords : list string) (explanation answer_text : string) :
  exists l reasoning,
    technical_branch keywords explanation answer_text = Py.ok (l, reasoning)
    /\ 0 <= score l <= 10.
Proof.
  unfold technical_branch.
  destruct (list_truthy keywords) eqn:Hk.
  - rewrite truediv_ok by (apply len_pos in Hk; lia).
    cbn [Py.bind Py.ok].
    do 2 eexists. split; [reflexivity|].
    repeat match goal with
           | |- context [if ?b then _ else _] => destruct b
           end; cbn [score set_score add_strength add_weakness add_tip add_part];
      lia.
  - cbn [Py.bind Py.ok].
    do 2 eexists. split; [reflexivity|].
    repeat match goal with
           | |- context [if ?b then _ else _] => destruct b
           end; cbn [score set_score add_strength add_weakness add_tip add_part];
      lia.
Qed.

Lemma behavioral_branch_returns (answer_text : string) :
  exists l reasoning,
    behavioral_branch answer_text = Py.ok (l, reasoning)
    /\ 0 <= score l <= 10
    /\ exists k, score l = 2 * k.
Proof.
  unfold behavioral_branch.
  pose proof (count_star_hits_bounds (Str.lower answer_text)) as Hh.
  set (star_hits := count_star_hits (Str.lower answer_text)) in *.
  do 2 eexists. split; [reflexivity|].
  destruct (Re.search metric_pattern (Str.lower answer_text));
    destruct (star_hits >=? 3);
    cbn [score set_score add_strength add_weakness add_tip add_part initial];
    (split; [lia|]).
  1, 2: exists (Z.min 5 (Z.min 5 star_hits + 1)); lia.
  all: exists (Z.min 5 star_hits); lia.
Qed.

Lemma scenario_branch_returns (keywords : list string) (answer_text : string) :
  exists l reasoning,
    scenario_branch keywords answer_text = Py.ok (l, reasoning)
    /\ 0 <= score l <= 9.
Proof.
  unfold scenario_branch.
  pose proof (count_matched_bounds keywords (Str.lower answer_text)) as Hm.
  set (matched := count_matched keywords (Str.lower answer_text)) in *.
  assert (Hc : exists coverage : Q,
             (if list_truthy keywords
              then Num.truediv matched (Str.len keywords)
              else Py.ok 0%Q) = Py.ok coverage
             /\ (0 <= coverage)%Q /\ (coverage <= 1)%Q).
  { destruct (list_truthy keywords) eqn:Hk.
    - apply len_pos in Hk.
      rewrite truediv_ok by lia.
      eexists. split; [reflexivity|].
      apply fraction_unit; assumption.
    - exists 0%Q. split; [reflexivity|]. split; lra. }
  destruct Hc as (coverage & -> & Hlo & Hhi).
  cbn [Py.bind Py.ok].
  do 2 eexists. split; [reflexivity|].
  assert (Hr : 0 <= Num.round (coverage * 7)%Q <= 7).
  { apply round_range; [lra|]. change (inject_Z 7) with 7%Q. lra. }
  repeat match goal with
         | |- context [if ?b then _ else _] => destruct b
         end; cbn [score set_score add_strength add_weakness add_tip add_part initial];
    lia.
Qed.

Lemma final_polish_score (l : locals) (reasoning : string) :
  res_score (final_polish l reasoning) = score l.
Proof.
  unfold final_polish.
  destruct (score l >=? 8); [reflexivity|].
  destruct (score l >=? 5); reflexivity.
Qed.

Lemma final_polish_reason (l : locals) (reasoning : string) :
  res_reason (final_polish l reasoning) =
  "Score: " ++ Str.of_int (score l) ++ "/10. " ++ reasoning.
Proof.
  unfold final_polish.
  destruct (score l >=? 8); [reflexivity|].
  destruct (score l >=? 5); reflexivity.
Qed.

Lemma qtype_technical (q : Question) (a : string) :
  get (q_type q) "technical" = "technical" ->
  branch q a =
  technical_branch (get (q_keywords q) []) (get (q_explanation q) "") a.
Proof.
  intros H. unfold branch. rewrite H. reflexivity.
Qed.

Lemma qtype_behavioral (q : Question) (a : string) :
  get (q_type q) "technical" = "behavioral" ->
  branch q a = behavioral_branch a.
Proof.
  intros H. unfold branch. rewrite H. reflexivity.
Qed.

Lemma qtype_scenario (q : Question) (a : string) :
  get (q_type q) "technical" <> "technical" ->
  get (q_type q) "technical" <> "behavioral" ->
  branch q a = scenario_branch (get (q_keywords q) []) a.
Proof.
  intros Ht Hb. unfold branch.
  destruct (String.eqb_spec (get (q_type q) "technical") "technical");
    [contradiction|].
  destruct (String.eqb_spec (get (q_type q) "technical") "behavioral");
    [contradiction|reflexivity].
Qed.

Lemma branch_returns (q : Question) (a : string) :
  exists l reasoning, branch q a = Py.ok (l, reasoning) /\ 0 <= score l <= 10.
Proof.
  unfold branch.
  destruct (String.eqb _ "technical").
  - apply technical_branch_returns.
  - destruct (String.eqb _ "behavioral").
    + destruct (behavioral_branch_returns a) as (l & r & E & H & _).
      exists l, r. split; assumption.
    + destruct (scenario_branch_returns (get (q_keywords q) []) a)
        as (l & r & E & H).
      exists l, r. split; [assumption|lia].
Qed.

Lemma evaluate_answer_empty (q : Question) :
  evaluate_answer q "" = Py.ok no_answer.
Proof. reflexivity. Qed.

Lemma evaluate_answer_nonempty (q : Question) (a : string) :
  a <> "" ->
  evaluate_answer q a =
  (lr <- branch q a ;; Py.ok (final_polish (fst lr) (snd lr))).
Proof.
  intros Ha. unfold evaluate_answer.
  destruct a; [contradiction|reflexivity].
Qed.

(** * The properties of [evaluate_answer] *)

(** C1.  For every question and every answer, [evaluate_answer] returns a
    result whose score is an integer between 0 and 10. *)
Theorem evaluate_answer_score_range (q : Question) (a : string) :
  exists r, evaluate_answer q a = Py.ok r /\ 0 <= res_score r <= 10.
Proof.
  destruct a as [|c a].
  - exists no_answer. split; [reflexivity|]. simpl. lia.
  - rewrite evaluate_answer_nonempty by discriminate.
    destruct (branch_returns q (String c a)) as (l & reasoning & -> & Hs).
    cbn [Py.bind Py.ok fst snd].
    eexists. split; [reflexivity|].
    rewrite final_polish_score. exact Hs.
Qed.

(** C2, as the claim states it, fails on an answer of three spaces: the
    answer is not empty, the technical rule scores it, the reason is not
    "No answer provided." and there is no tip. *)
Lemma whitespace_answer_is_scored :
  ~ (exists r,
        evaluate_answer bare_technical_question "   " = Py.ok r
        /\ res_score r = 0
        /\ res_reason r = "No answer provided."
        /\ res_strengths r = []
        /\ res_weaknesses r <> []
        /\ res_tips r <> []).
Proof.
  intros (r & E & _ & Hreason & _).
  vm_compute in E. injection E as <-.
  discriminate Hreason.
Qed.

(** C2, amended.  For every question, of every type, the empty answer gets
    score 0, the reason "No answer provided.", no strength, the one
    weakness "No response." and the one generic tip; no rule of the
    question's type is consulted. *)
Theorem empty_answer_result (q : Question) :
  exists r,
    evaluate_answer q "" = Py.ok r
    /\ res_score r = 0
    /\ res_reason r = "No answer provided."
    /\ res_strengths r = []
    /\ res_weaknesses r = ["No response."]
    /\ res_tips r =
       ["Try to answer the question; use STAR for behavioral answers or outline steps for technical ones."].
Proof.
  exists no_answer. repeat split; reflexivity.
Qed.

(** C3, as the claim states it, fails on the empty answer: its reason is
    "No answer provided.", which does not begin with "Score: 0/10. ". *)
Lemma empty_answer_reason_has_no_score_prefix :
  ~ (exists r,
        evaluate_answer cia_question "" = Py.ok r
        /\ prefix ("Score: " ++ Str.of_int (res_score r) ++ "/10. ")
             (res_reason r) = true).
Proof.
  intros (r & E & Hp).
  vm_compute in E. injection E as <-.
  vm_compute in Hp. discriminate Hp.
Qed.

(** C3, amended.  For every question and every answer that is not empty,
    the reason is "Score: {score}/10. " followed by the reasoning of the
    branch the question's type selects, where {score} is the returned
    score. *)
Theorem reason_format (q : Question) (a : string) :
  a <> "" ->
  exists l reasoning r,
    branch q a = Py.ok (l, reasoning)
    /\ evaluate_answer q a = Py.ok r
    /\ res_reason r =
       "Score: " ++ Str.of_int (res_score r) ++ "/10. " ++ reasoning.
Proof.
  intros Ha.
  rewrite evaluate_answer_nonempty by exact Ha.
  destruct (branch_returns q a) as (l & reasoning & E & _).
  exists l, reasoning, (final_polish l reasoning).
  rewrite E. cbn [Py.bind Py.ok fst snd].
  split; [reflexivity|]. split; [reflexivity|].
  rewrite final_polish_reason, final_polish_score. reflexivity.
Qed.

Lemma reason_format_witness :
  "I led the task" <> ""
  /\ exists l reasoning r,
       branch behavioral_question "I led the task" = Py.ok (l, reasoning)
       /\ evaluate_answer behavioral_question "I led the task" = Py.ok r
       /\ res_reason r =
          "Score: " ++ Str.of_int (res_score r) ++ "/10. " ++ reasoning.
Proof.
  split; [discriminate|].
  apply (reason_format behavioral_question "I led the task"); discriminate.
Defined.

(** C4.  On a behavioral question the answer "20%", a bare percentage,
    gets no bonus: the pattern asks for a word boundary after the percent
    sign, and there is none before the end of the text or a space.  The
    score stays 0 and the strength "Included measurable results or metrics"
    is not given. *)
Theorem bare_percentage_gets_no_bonus :
  Re.search metric_pattern (Str.lower "20%") = false
  /\ evaluate_answer behavioral_question "20%" =
     Py.ok
       {| res_score := 0;
          res_reason := "Score: 0/10. Detected STAR-like keywords: 0";
          res_strengths := [];
          res_weaknesses :=
            ["Missing parts of the STAR structure (Situation, Task, Action, Result)"];
          res_tips :=
            ["Use the STAR method: briefly state the Situation and Task, describe Actions you took, and end with the Result (preferably quantifiable)."] |}.
Proof.
  split; vm_compute; reflexivity.
Qed.

(** C5.  [evaluate_answer] raises on no input: for every question record,
    whatever fields it has or lacks and whatever its type, and every answer,
    it returns a result. *)
Theorem evaluate_answer_never_raises (q : Question) (a : string) :
  (exists r, evaluate_answer q a = Py.ok r)
  /\ (forall e, evaluate_answer q a <> Py.raise e).
Proof.
  assert (E : exists r, evaluate_answer q a = Py.ok r).
  { destruct a as [|c a].
    - exists no_answer. reflexivity.
    - rewrite evaluate_answer_nonempty by discriminate.
      destruct (branch_returns q (String c a)) as (l & reasoning & -> & _).
      eexists. reflexivity. }
  destruct E as (r & E).
  split.
  - exists r. exact E.
  - intros e H. rewrite E in H. discriminate H.
Qed.

(** C6.  The CIA question and the answer "Confidentiality, integrity and
    availability": the three keywords are matched, the coverage 3/3 gives
    the base 8, the four words are fewer than 30 and take 1 off, the score
    is 7, the reason starts "Score: 7/10. Keyword coverage: 3/3", the
    weakness about the short answer and the strength about the key concepts
    are both there. *)
Theorem cia_end_to_end :
  count_matched ["confidentiality"; "integrity"; "availability"]
    (Str.lower cia_answer) = 3
  /\ keyword_score 3 3 = Py.ok 8
  /\ Str.len (Str.split cia_answer) = 4
  /\ exists r,
       evaluate_answer cia_question cia_answer = Py.ok r
       /\ res_score r = 7
       /\ prefix "Score: 7/10. Keyword coverage: 3/3" (res_reason r) = true
       /\ In "Answer was short; expand with steps or examples"
            (res_weaknesses r)
       /\ In "Covered most key concepts" (res_strengths r).
Proof.
  split; [vm_compute; reflexivity|].
  split; [vm_compute; reflexivity|].
  split; [vm_compute; reflexivity|].
  eexists. split; [vm_compute; reflexivity|].
  split; [reflexivity|].
  split; [reflexivity|].
  split; left; reflexivity.
Qed.

(** The result is a function of the answer and of three fields of the
    question only: its type, its keywords and its explanation. *)
Lemma evaluate_answer_reads_three_fields (q1 q2 : Question) (a : string) :
  q_type q1 = q_type q2 ->
  q_keywords q1 = q_keywords q2 ->
  q_explanation q1 = q_explanation q2 ->
  evaluate_answer q1 a = evaluate_answer q2 a.
Proof.
  intros Ht Hk He. unfold evaluate_answer, branch.
  rewrite Ht, Hk, He. reflexivity.
Qed.

(** C8.  For a keyword list of size n > 0, the keyword-derived component
    round((m/n) * 8) of the technical score does not decrease when the
    number m of matched keywords grows: for m1 <= m2 <= n the component
    for m1 is at most the component for m2. *)
Theorem keyword_score_monotone (n m1 m2 : Z) :
  0 < n -> 0 <= m1 -> m1 <= m2 -> m2 <= n ->
  exists s1 s2,
    keyword_score m1 n = Py.ok s1
    /\ keyword_score m2 n = Py.ok s2
    /\ s1 <= s2.
Proof.
  intros Hn H1 H12 H2n. unfold keyword_score.
  rewrite !truediv_ok by lia. cbn [Py.bind Py.ok].
  do 2 eexists. split; [reflexivity|]. split; [reflexivity|].
  apply round_le.
  apply Qmult_le_compat_r; [|lra].
  apply fraction_le; assumption.
Qed.

Lemma keyword_score_monotone_witness :
  exists s1 s2,
    keyword_score 1 3 = Py.ok s1
    /\ keyword_score 2 3 = Py.ok s2
    /\ s1 <= s2.
Proof.
  apply (keyword_score_monotone 3 1 2); lia.
Defined.

(** C9.  For every question whose type is neither "technical" nor
    "behavioral" and every answer, the score is at most 9: the scenario
    branch gives at most round(coverage * 7) = 7 and a bonus of 2, so it
    stays in [0, 10] without a clamp of its own. *)
Theorem scenario_score_at_most_9 (q : Question) (a : string) :
  get (q_type q) "technical" <> "technical" ->
  get (q_type q) "technical" <> "behavioral" ->
  exists r, evaluate_answer q a = Py.ok r /\ 0 <= res_score r <= 9.
Proof.
  intros Ht Hb.
  destruct a as [|c a].
  - exists no_answer. split; [reflexivity|]. simpl. lia.
  - rewrite evaluate_answer_nonempty by discriminate.
    rewrite qtype_scenario by assumption.
    destruct (scenario_branch_returns (get (q_keywords q) []) (String c a))
      as (l & reasoning & -> & Hs).
    cbn [Py.bind Py.ok fst snd].
    eexists. split; [reflexivity|].
    rewrite final_polish_score. exact Hs.
Qed.

Lemma scenario_score_at_most_9_witness :
  exists r,
    evaluate_answer scenario_question "First contain, then isolate" = Py.ok r
    /\ 0 <= res_score r <= 9.
Proof.
  apply (scenario_score_at_most_9 scenario_question
           "First contain, then isolate");
    vm_compute; discriminate.
Defined.

(** C10.  For every behavioral question and every answer that is not
    empty, the score is even: it is star_hits * 2 capped at 10, to which
    only 2, capped at 10 again, is ever added. *)
Theorem behavioral_score_even (q : Question) (a : string) :
  get (q_type q) "technical" = "behavioral" ->
  a <> "" ->
  exists r, evaluate_answer q a = Py.ok r /\ Z.even (res_score r) = true.
Proof.
  intros Hq Ha.
  rewrite evaluate_answer_nonempty by exact Ha.
  rewrite qtype_behavioral by exact Hq.
  destruct (behavioral_branch_returns a) as (l & reasoning & -> & _ & k & Hk).
  cbn [Py.bind Py.ok fst snd].
  eexists. split; [reflexivity|].
  rewrite final_polish_score, Hk.
  rewrite Z.even_mul. reflexivity.
Qed.

Lemma behavioral_score_even_witness :
  exists r,
    evaluate_answer behavioral_question "I led the task and improved uptime"
    = Py.ok r
    /\ Z.even (res_score r) = true.
Proof.
  apply (behavioral_score_even behavioral_question
           "I led the task and improved uptime");
    [reflexivity | discriminate].
Defined.

(** * The component inside the technical branch *)

(** With keywords, the technical branch leaves in [score] the keyword
    component, moved by the length rule and clamped. *)
Lemma technical_branch_keyword_score
  (keywords : list string) (explanation answer_text : string) :
  list_truthy keywords = true ->
  exists l reasoning s,
    technical_branch keywords explanation answer_text = Py.ok (l, reasoning)
    /\ keyword_score (count_matched keywords (Str.lower answer_text))
         (Str.len keywords) = Py.ok s
    /\ score l =
       Z.max 0
         (Z.min 10
            (if Str.len (Str.split answer_text) >? 120 then Z.min 10 (s + 1)
             else if Str.len (Str.split answer_text) <? 30 then Z.max 0 (s - 1)
             else s)).
Proof.
  intros Hk. unfold technical_branch, keyword_score. rewrite Hk.
  rewrite truediv_ok by (apply len_pos in Hk; lia).
  cbn [Py.bind Py.ok].
  do 3 eexists. split; [reflexivity|]. split; [reflexivity|].
  repeat match goal with
         | |- context [if ?b then _ else _] => destruct b
         end; reflexivity.
Qed.

(** With the keyword list and the number of words of the answer held
    fixed, an answer that matches more keywords does not score less. *)
Lemma technical_score_monotone
  (keywords : list string) (explanation a1 a2 : string) :
  list_truthy keywords = true ->
  Str.len (Str.split a1) = Str.len (Str.split a2) ->
  count_matched keywords (Str.lower a1)
  <= count_matched keywords (Str.lower a2) ->
  exists l1 r1 l2 r2,
    technical_branch keywords explanation a1 = Py.ok (l1, r1)
    /\ technical_branch keywords explanation a2 = Py.ok (l2, r2)
    /\ score l1 <= score l2.
Proof.
  intros Hk Hw Hm.
  destruct (technical_branch_keyword_score keywords explanation a1 Hk)
    as (l1 & r1 & s1 & E1 & K1 & S1).
  destruct (technical_branch_keyword_score keywords explanation a2 Hk)
    as (l2 & r2 & s2 & E2 & K2 & S2).
  exists l1, r1, l2, r2. split; [exact E1|]. split; [exact E2|].
  assert (Hs : s1 <= s2).
  { pose proof (len_pos keywords Hk) as Hn.
    unfold keyword_score in K1, K2.
    rewrite truediv_ok in K1, K2 by lia.
    cbn [Py.bind Py.ok] in K1, K2.
    injection K1 as <-. injection K2 as <-.
    apply round_le. apply Qmult_le_compat_r; [|lra].
    apply fraction_le; assumption. }
  rewrite S1, S2, Hw.
  destruct (Str.len (Str.split a2) >? 120);
    [|destruct (Str.len (Str.split a2) <? 30)]; lia.
Qed.

(** * More answers with a percentage *)

Example percentage_before_space :
  Re.search metric_pattern (Str.lower "I cut costs by 20% last year") = false.
Proof. reflexivity. Qed.

Example percentage_at_end :
  Re.search metric_pattern (Str.lower "Latency went down 35%") = false.
Proof. reflexivity. Qed.

Example percentage_with_verb :
  Re.search metric_pattern (Str.lower "We reduced costs by 20%") = true.
Proof. reflexivity. Qed.

(** * Stripping white space *)

Lemma lstrip_head (s : string) :
  Str.lstrip s = ""
  \/ exists c r, Str.lstrip s = String c r /\ Char.is_space c = false.
Proof.
  induction s as [|c s IH]; [left; reflexivity|].
  simpl. destruct (Char.is_space c) eqn:E; [exact IH|].
  right. exists c, s. split; [reflexivity|exact E].
Qed.

Lemma rstrip_keeps_head (c : ascii) (r : string) :
  Char.is_space c = false -> Str.rstrip (String c r) = String c (Str.rstrip r).
Proof.
  intros E. simpl. rewrite E. destruct (Str.rstrip r); reflexivity.
Qed.

Lemma rstrip_idempotent (s : string) : Str.rstrip (Str.rstrip s) = Str.rstrip s.
Proof.
  induction s as [|c s IH]; [reflexivity|].
  simpl. destruct (Str.rstrip s) as [|d r] eqn:E.
  - destruct (Char.is_space c) eqn:Ec; [reflexivity|].
    simpl. rewrite Ec. reflexivity.
  - change (Str.rstrip (String c (String d r)) = String c (String d r)).
    simpl. simpl in IH. rewrite IH. reflexivity.
Qed.

Lemma strip_lstrip (s : string) : Str.lstrip (Str.strip s) = Str.strip s.
Proof.
  unfold Str.strip.
  destruct (lstrip_head s) as [E|(c & r & E & Hc)]; rewrite E.
  - reflexivity.
  - rewrite rstrip_keeps_head by exact Hc. simpl. rewrite Hc. reflexivity.
Qed.

Lemma strip_rstrip (s : string) : Str.rstrip (Str.strip s) = Str.strip s.
Proof. unfold Str.strip. apply rstrip_idempotent. Qed.

Lemma all_space_lstrip (s : string) :
  Str.all_space (Str.lstrip s) = Str.all_space s.
Proof.
  induction s as [|c s IH]; [reflexivity|].
  simpl. destruct (Char.is_space c) eqn:E; [exact IH|].
  simpl. rewrite E. reflexivity.
Qed.

Lemma rstrip_empty (s : string) :
  String.eqb (Str.rstrip s) "" = Str.all_space s.
Proof.
  induction s as [|c s IH]; [reflexivity|].
  simpl. destruct (Str.rstrip s) as [|d r].
  - simpl in IH. rewrite <- IH.
    destruct (Char.is_space c); reflexivity.
  - simpl in IH. rewrite <- IH. rewrite andb_false_r. reflexivity.
Qed.

Lemma strip_empty (s : string) :
  String.eqb (Str.strip s) "" = Str.all_space s.
Proof.
  unfold Str.strip. rewrite rstrip_empty. apply all_space_lstrip.
Qed.

Lemma all_space_rstrip (s : string) :
  Str.all_space (Str.rstrip s) = Str.all_space s.
Proof.
  induction s as [|c s IH]; [reflexivity|].
  simpl. destruct (Str.rstrip s) as [|d r] eqn:E.
  - rewrite <- IH. destruct (Char.is_space c) eqn:Ec; simpl; rewrite ?Ec; reflexivity.
  - simpl. simpl in IH. rewrite IH. reflexivity.
Qed.

Lemma all_space_strip (s : string) :
  Str.all_space (Str.strip s) = Str.all_space s.
Proof.
  unfold Str.strip. rewrite all_space_rstrip. apply all_space_lstrip.
Qed.

Lemma all_space_app (a b : string) :
  Str.all_space (a ++ b) = Str.all_space a && Str.all_space b.
Proof.
  induction a as [|c a IH]; [reflexivity|].
  simpl. rewrite IH. apply andb_assoc.
Qed.

Lemma eqb_empty (s : string) : String.eqb s "" = negb (str_truthy s).
Proof. destruct s; reflexivity. Qed.

(** * [get_multiline_input] *)

Lemma read_answer_lines_spec (stdin lines : list string) :
  exists taken,
    fst (read_answer_lines stdin lines) = (lines ++ taken)%list
    /\ Forall not_blank taken
    /\ ((stdin = taken /\ snd (read_answer_lines stdin lines) = [])
        \/ exists b, blank b
             /\ stdin = (taken ++ b :: snd (read_answer_lines stdin lines))%list).
Proof.
  revert lines. induction stdin as [|line rest IH]; intros lines.
  - exists []. simpl. rewrite app_nil_r. repeat split; auto.
  - simpl. rewrite strip_empty.
    destruct (Str.all_space line) eqn:E.
    + exists []. simpl. rewrite app_nil_r.
      split; [reflexivity|]. split; [constructor|].
      right. exists line. split; [exact E|reflexivity].
    + destruct (IH (lines ++ [line])%list) as (taken & Hf & Hn & Hs).
      exists (line :: taken). rewrite Hf, <- app_assoc.
      split; [reflexivity|]. split; [constructor; assumption|].
      destruct Hs as [[-> ->]|(b & Hb & Hs)].
      * left. split; reflexivity.
      * right. exists b. split; [exact Hb|].
        simpl. f_equal. exact Hs.
Qed.

Lemma join_not_blank (line : string) (more : list string) :
  Str.all_space line = false ->
  Str.all_space (Str.join Str.nl (line :: more)) = false.
Proof.
  intros E. destruct more as [|m more].
  - exact E.
  - change (Str.all_space (line ++ Str.nl ++ Str.join Str.nl (m :: more))
            = false).
    rewrite all_space_app, E. reflexivity.
Qed.

(** X1.  [get_multiline_input] takes the lines up to the first blank line,
    which it consumes, or up to the end of the input; the answer is these
    lines joined by line feeds and stripped; only the prompt is written and
    the session log is not touched. *)
Theorem get_multiline_input_reads_to_blank (prompt : string) (w : Sys.World) :
  exists taken,
    Forall not_blank taken
    /\ fst (get_multiline_input prompt w) =
       Str.strip (Str.join Str.nl taken)
    /\ ((Sys.stdin w = taken
         /\ Sys.stdin (snd (get_multiline_input prompt w)) = [])
        \/ exists b, blank b
             /\ Sys.stdin w =
                (taken ++ b :: Sys.stdin (snd (get_multiline_input prompt w)))%list)
    /\ Sys.stdout (snd (get_multiline_input prompt w)) =
       (Sys.stdout w ++ [(prompt ++ Str.nl)%string])%list
    /\ Sys.session_log (snd (get_multiline_input prompt w)) =
       Sys.session_log w.
Proof.
  unfold get_multiline_input. cbn [fst snd].
  change (Sys.stdin (Sys.print prompt w)) with (Sys.stdin w).
  destruct (read_answer_lines_spec (Sys.stdin w) []) as (taken & Hf & Hn & Hs).
  exists taken. rewrite Hf. cbn [app].
  split; [exact Hn|]. split; [reflexivity|].
  split; [exact Hs|]. split; reflexivity.
Qed.

(** X2.  The answer [get_multiline_input] returns neither begins nor ends
    with white space. *)
Theorem get_multiline_input_is_stripped (prompt : string) (w : Sys.World) :
  Str.lstrip (fst (get_multiline_input prompt w)) =
  fst (get_multiline_input prompt w)
  /\ Str.rstrip (fst (get_multiline_input prompt w)) =
     fst (get_multiline_input prompt w).
Proof.
  unfold get_multiline_input. cbn [fst].
  split; [apply strip_lstrip|apply strip_rstrip].
Qed.

(** X3.  The answer is empty exactly when the input is at its end or its
    first line is blank. *)
Theorem get_multiline_input_empty (prompt : string) (w : Sys.World) :
  String.eqb (fst (get_multiline_input prompt w)) "" =
  match Sys.stdin w with
  | [] => true
  | line :: _ => Str.all_space line
  end.
Proof.
  unfold get_multiline_input. cbn [fst].
  change (Sys.stdin (Sys.print prompt w)) with (Sys.stdin w).
  rewrite strip_empty.
  destruct (Sys.stdin w) as [|line rest]; [reflexivity|].
  simpl. rewrite strip_empty.
  destruct (Str.all_space line) eqn:E; [reflexivity|].
  destruct (read_answer_lines_spec rest [line]) as (taken & -> & _).
  apply join_not_blank. exact E.
Qed.

(** X4.  An answer typed at the console that holds white space only
    reaches [evaluate_answer] as the empty answer, and gets the result of
    the empty-answer rule. *)
Theorem console_blank_answer_is_no_answer
  (prompt : string) (w : Sys.World) (q : Question) :
  Str.all_space (fst (get_multiline_input prompt w)) = true ->
  fst (get_multiline_input prompt w) = ""
  /\ evaluate_answer q (fst (get_multiline_input prompt w)) = Py.ok no_answer.
Proof.
  unfold get_multiline_input. cbn [fst].
  intros H. rewrite all_space_strip, <- strip_empty in H.
  apply String.eqb_eq in H. rewrite H. split; reflexivity.
Qed.

Lemma console_blank_answer_is_no_answer_witness :
  fst (get_multiline_input default_prompt (world_of ["   "; "not read"])) = ""
  /\ evaluate_answer cia_question
       (fst (get_multiline_input default_prompt
               (world_of ["   "; "not read"]))) = Py.ok no_answer.
Proof.
  apply (console_blank_answer_is_no_answer default_prompt
           (world_of ["   "; "not read"]) cia_question).
  reflexivity.
Defined.

(** * [choose_questions] *)

Lemma filter_difficulty_ok (questions : list Question) (difficulty : string)
  (pool : list Question) :
  filter_difficulty questions difficulty = inr pool ->
  pool = filter (has_difficulty difficulty) questions.
Proof.
  revert pool. induction questions as [|q rest IH]; intros pool H.
  - simpl in H. injection H as <-. reflexivity.
  - simpl in H.
    destruct (q_difficulty q) as [d|] eqn:Ed; [|discriminate H].
    destruct (filter_difficulty rest difficulty) as [e|pool']; [discriminate H|].
    injection H as <-. rewrite (IH pool' eq_refl).
    assert (Hq : has_difficulty difficulty q =
                 String.eqb (Str.lower d) (Str.lower difficulty))
      by (unfold has_difficulty; rewrite Ed; reflexivity).
    cbn [filter]. rewrite Hq. reflexivity.
Qed.

Lemma filter_difficulty_raises (questions : list Question)
  (difficulty : string) :
  (exists q, In q questions /\ q_difficulty q = None)
  <-> filter_difficulty questions difficulty
      = inl (Sys.KeyError "difficulty").
Proof.
  induction questions as [|q rest IH]; simpl.
  - split; [intros (q & [] & _)|discriminate].
  - destruct (q_difficulty q) as [d|] eqn:Ed.
    + destruct (filter_difficulty rest difficulty) as [e|pool].
      * split.
        -- intros (q' & [<-|Hin] & Hn); [congruence|].
           apply IH. exists q'. split; assumption.
        -- intros H.
           destruct (proj2 IH H) as (q' & Hin & Hn).
           exists q'. split; [right; exact Hin|exact Hn].
      * split; [|discriminate].
        intros (q' & [<-|Hin] & Hn); [congruence|].
        assert (H : @inr Sys.exn _ pool = inl (Sys.KeyError "difficulty"))
          by (apply IH; exists q'; split; assumption).
        discriminate H.
    + split; [reflexivity|]. intros _. exists q. split; [left; reflexivity|exact Ed].
Qed.

Lemma filter_split {A : Type} (f : A -> bool) (l : list A) :
  Permutation (filter f l ++ filter (fun x => negb (f x)) l) l.
Proof.
  induction l as [|x l IH]; [constructor|].
  simpl. destruct (f x); simpl.
  - constructor. exact IH.
  - apply Permutation_sym, Permutation_cons_app, Permutation_sym. exact IH.
Qed.

Lemma slice_to_firstn {A : Type} (l : list A) (count : Z) :
  exists k, Str.slice_to l count = firstn k l.
Proof.
  unfold Str.slice_to. destruct (count <? 0); eexists; reflexivity.
Qed.

Lemma slice_to_len {A : Type} (l : list A) (count : Z) :
  Str.len (Str.slice_to l count) =
  if count <? 0 then Z.max 0 (Str.len l + count) else Z.min count (Str.len l).
Proof.
  unfold Str.slice_to, Str.len.
  destruct (Z.ltb_spec count 0); rewrite length_firstn; lia.
Qed.

Lemma slice_to_rest {A : Type} (l : list A) (count : Z) :
  exists rest, (Str.slice_to l count ++ rest)%list = l.
Proof.
  destruct (slice_to_firstn l count) as (k & ->).
  exists (skipn k l). apply firstn_skipn.
Qed.

Lemma candidates_nonempty (questions : list Question) (difficulty : string) :
  existsb (has_difficulty difficulty) questions = true ->
  candidates questions difficulty = filter (has_difficulty difficulty) questions
  /\ list_truthy (filter (has_difficulty difficulty) questions) = true.
Proof.
  intros H. apply existsb_exists in H. destruct H as (q & Hin & Hq).
  assert (Hf : In q (filter (has_difficulty difficulty) questions))
    by (apply filter_In; split; assumption).
  unfold candidates.
  destruct (filter (has_difficulty difficulty) questions);
    [contradiction|split; reflexivity].
Qed.

Lemma candidates_fallback (questions : list Question) (difficulty : string) :
  existsb (has_difficulty difficulty) questions = false ->
  candidates questions difficulty = questions
  /\ list_truthy (filter (has_difficulty difficulty) questions) = false.
Proof.
  intros H. unfold candidates.
  destruct (filter (has_difficulty difficulty) questions) as [|q l] eqn:E;
    [split; reflexivity|].
  assert (Hin : In q (filter (has_difficulty difficulty) questions))
    by (rewrite E; left; reflexivity).
  apply filter_In in Hin. destruct Hin as (Hin & Hq).
  assert (Ht : existsb (has_difficulty difficulty) questions = true)
    by (apply existsb_exists; exists q; split; assumption).
  congruence.
Qed.

Section Chooser.

Variable rng : Type.
Variable shuffle : rng -> list Question -> list Question * rng.
Hypothesis shuffle_permutes :
  forall g l, Permutation (fst (shuffle g l)) l.

Lemma shuffled_permutes (mix : bool) (g : rng) (l : list Question) :
  Permutation (fst (if mix then shuffle g l else (l, g))) l.
Proof.
  destruct mix; [apply shuffle_permutes|apply Permutation_refl].
Qed.

Lemma choose_questions_pool
  (questions : list Question) (count : Z) (difficulty : string) (mix : bool)
  (g : rng) (r : Chosen rng) :
  choose_questions rng shuffle questions count difficulty mix g = inr r ->
  exists pool,
    Permutation pool (candidates questions difficulty)
    /\ chosen r = Str.slice_to pool count
    /\ (mix = false -> pool = candidates questions difficulty)
    /\ (existsb (has_difficulty difficulty) questions = true ->
        questions_after r = questions)
    /\ (existsb (has_difficulty difficulty) questions = false ->
        questions_after r = pool).
Proof.
  unfold choose_questions. intros H.
  destruct (filter_difficulty questions difficulty) as [e|filtered] eqn:Ef;
    [discriminate H|].
  apply filter_difficulty_ok in Ef. subst filtered.
  destruct (existsb (has_difficulty difficulty) questions) eqn:Ex.
  - destruct (candidates_nonempty questions difficulty Ex) as (Ec & Et).
    rewrite Et in H. injection H as <-. cbn [chosen questions_after].
    exists (fst (if mix
                 then shuffle g (filter (has_difficulty difficulty) questions)
                 else (filter (has_difficulty difficulty) questions, g))).
    rewrite Ec. split; [apply shuffled_permutes|].
    split; [reflexivity|]. split; [intros ->; reflexivity|].
    split; [reflexivity|discriminate].
  - destruct (candidates_fallback questions difficulty Ex) as (Ec & Et).
    rewrite Et in H. injection H as <-. cbn [chosen questions_after].
    exists (fst (if mix then shuffle g questions else (questions, g))).
    rewrite Ec. split; [apply shuffled_permutes|].
    split; [reflexivity|]. split; [intros ->; reflexivity|].
    split; [discriminate|reflexivity].
Qed.

(** X5.  The questions [choose_questions] returns are drawn from the list
    it is given, none more often than it is in the list. *)
Theorem chosen_drawn_from_questions
  (questions : list Question) (count : Z) (difficulty : string) (mix : bool)
  (g : rng) (r : Chosen rng) :
  choose_questions rng shuffle questions count difficulty mix g = inr r ->
  exists others, Permutation (chosen r ++ others) questions.
Proof.
  intros H.
  destruct (choose_questions_pool _ _ _ _ _ _ H) as (pool & Hp & -> & _).
  destruct (slice_to_rest pool count) as (rest & Hr).
  assert (Hc : exists extra,
             Permutation (candidates questions difficulty ++ extra) questions).
  { unfold candidates.
    destruct (list_truthy (filter (has_difficulty difficulty) questions)).
    - eexists. apply filter_split.
    - exists []. rewrite app_nil_r. apply Permutation_refl. }
  destruct Hc as (extra & Hc).
  exists (rest ++ extra)%list. rewrite app_assoc, Hr.
  eapply Permutation_trans; [|exact Hc].
  apply Permutation_app_tail. exact Hp.
Qed.

(** X6.  The number of questions returned: for a count that is not
    negative, the count or the size of the pool if that is smaller; for a
    negative count -k, the size of the pool less k, and not an empty
    list unless the pool has at most k questions.  The pool is the questions
    of the difficulty, or all of them when there is none. *)
Theorem chosen_size
  (questions : list Question) (count : Z) (difficulty : string) (mix : bool)
  (g : rng) (r : Chosen rng) :
  choose_questions rng shuffle questions count difficulty mix g = inr r ->
  Str.len (chosen r) =
  if count <? 0
  then Z.max 0 (Str.len (candidates questions difficulty) + count)
  else Z.min count (Str.len (candidates questions difficulty)).
Proof.
  intros H.
  destruct (choose_questions_pool _ _ _ _ _ _ H) as (pool & Hp & -> & _).
  rewrite slice_to_len.
  apply Permutation_length in Hp. unfold Str.len. rewrite Hp. reflexivity.
Qed.

(** X7.  When some question has the difficulty asked for, in any letter
    case, every question returned has it, and the caller's list is left as
    it was. *)
Theorem chosen_have_difficulty
  (questions : list Question) (count : Z) (difficulty : string) (mix : bool)
  (g : rng) (r : Chosen rng) :
  choose_questions rng shuffle questions count difficulty mix g = inr r ->
  existsb (has_difficulty difficulty) questions = true ->
  Forall (fun q => has_difficulty difficulty q = true) (chosen r)
  /\ questions_after r = questions.
Proof.
  intros H Hex.
  destruct (choose_questions_pool _ _ _ _ _ _ H)
    as (pool & Hp & -> & _ & Hq & _).
  split; [|exact (Hq Hex)].
  destruct (candidates_nonempty questions difficulty Hex) as (Ec & _).
  rewrite Ec in Hp.
  apply Forall_forall. intros q Hin.
  destruct (slice_to_firstn pool count) as (k & Ek). rewrite Ek in Hin.
  assert (Hpool : In q pool).
  { rewrite <- (firstn_skipn k pool). apply in_or_app. left. exact Hin. }
  apply (Permutation_in _ Hp) in Hpool.
  apply filter_In in Hpool. exact (proj2 Hpool).
Qed.

(** X8.  When no question has the difficulty asked for, the questions are
    taken from the whole list, and the shuffle is done on the caller's own
    list: after the call that list is a permutation of what it was, and the
    questions returned are its first ones. *)
Theorem fallback_shuffles_callers_list
  (questions : list Question) (count : Z) (difficulty : string) (mix : bool)
  (g : rng) (r : Chosen rng) :
  choose_questions rng shuffle questions count difficulty mix g = inr r ->
  existsb (has_difficulty difficulty) questions = false ->
  Permutation (questions_after r) questions
  /\ chosen r = Str.slice_to (questions_after r) count.
Proof.
  intros H Hex.
  destruct (choose_questions_pool _ _ _ _ _ _ H)
    as (pool & Hp & Hc & _ & _ & Hq).
  rewrite (Hq Hex).
  destruct (candidates_fallback questions difficulty Hex) as (Ec & _).
  rewrite Ec in Hp. split; assumption.
Qed.

(** X9.  [choose_questions] raises [KeyError] exactly when some question of
    the list has no difficulty, whether or not that question would have been
    chosen. *)
Theorem choose_questions_key_error
  (questions : list Question) (count : Z) (difficulty : string) (mix : bool)
  (g : rng) :
  (exists q, In q questions /\ q_difficulty q = None)
  <-> choose_questions rng shuffle questions count difficulty mix g
      = inl (Sys.KeyError "difficulty").
Proof.
  rewrite (filter_difficulty_raises questions difficulty).
  unfold choose_questions.
  destruct (filter_difficulty questions difficulty) as [e|filtered].
  - split; intros H; injection H as ->; reflexivity.
  - split; [discriminate|].
    destruct (list_truthy filtered); discriminate.
Qed.

End Chooser.

Lemma reverse_shuffle_permutes (g : nat) (l : list Question) :
  Permutation (fst (reverse_shuffle g l)) l.
Proof. apply Permutation_sym, Permutation_rev. Qed.

Example choose_basic :
  choose_questions nat reverse_shuffle sample_pool 1 "basic" true 0%nat
  = inr basic_choice.
Proof. reflexivity. Qed.

Example choose_fallback :
  choose_questions nat reverse_shuffle sample_pool (-1) "expert" true 0%nat
  = inr fallback_choice.
Proof. reflexivity. Qed.

Lemma chosen_drawn_from_questions_witness :
  exists others, Permutation (chosen basic_choice ++ others) sample_pool.
Proof.
  apply (chosen_drawn_from_questions nat reverse_shuffle
           reverse_shuffle_permutes sample_pool 1 "basic" true 0%nat
           basic_choice).
  reflexivity.
Defined.

Lemma chosen_size_witness :
  Str.len (chosen fallback_choice) =
  Z.max 0 (Str.len (candidates sample_pool "expert") + -1).
Proof.
  apply (chosen_size nat reverse_shuffle reverse_shuffle_permutes
           sample_pool (-1) "expert" true 0%nat fallback_choice).
  reflexivity.
Defined.

Lemma chosen_have_difficulty_witness :
  Forall (fun q => has_difficulty "basic" q = true) (chosen basic_choice)
  /\ questions_after basic_choice = sample_pool.
Proof.
  apply (chosen_have_difficulty nat reverse_shuffle reverse_shuffle_permutes
           sample_pool 1 "basic" true 0%nat basic_choice);
    reflexivity.
Defined.

Lemma fallback_shuffles_callers_list_witness :
  Permutation (questions_after fallback_choice) sample_pool
  /\ chosen fallback_choice =
     Str.slice_to (questions_after fallback_choice) (-1).
Proof.
  apply (fallback_shuffles_callers_list nat reverse_shuffle
           reverse_shuffle_permutes sample_pool (-1) "expert" true 0%nat
           fallback_choice);
    reflexivity.
Defined.

(** * [give_feedback] *)

Lemma print_items_writes (items : list string) (w : Sys.World) :
  print_items items w =
  {| Sys.stdin := Sys.stdin w;
     Sys.stdout := Sys.stdout w ++ map bullet items;
     Sys.session_log := Sys.session_log w |}.
Proof.
  unfold print_items. revert w.
  induction items as [|s items IH]; intros w.
  - simpl. rewrite app_nil_r. destruct w; reflexivity.
  - cbn [fold_left]. rewrite IH. cbn [Sys.print Sys.write Sys.stdin Sys.stdout
                                       Sys.session_log map].
    rewrite <- app_assoc. reflexivity.
Qed.

Lemma print_section_writes (heading : string) (items : list string)
  (w : Sys.World) :
  print_section heading items w =
  {| Sys.stdin := Sys.stdin w;
     Sys.stdout :=
       Sys.stdout w ++
       (if list_truthy items then (heading ++ Str.nl)%string :: map bullet items
        else []);
     Sys.session_log := Sys.session_log w |}.
Proof.
  unfold print_section. destruct (list_truthy items).
  - rewrite print_items_writes.
    cbn [Sys.print Sys.write Sys.stdin Sys.stdout Sys.session_log].
    rewrite <- app_assoc. reflexivity.
  - rewrite app_nil_r. destruct w; reflexivity.
Qed.

Example lines_of_text :
  lines_of ("a" ++ Str.nl ++ Str.nl ++ " - b" ++ Str.nl ++ "c")
  = ["a"; ""; " - b"; "c"].
Proof. reflexivity. Qed.

Lemma str_app_assoc (a b c : string) : (a ++ b) ++ c = a ++ (b ++ c).
Proof.
  induction a as [|x a IH]; [reflexivity|]. simpl. rewrite IH. reflexivity.
Qed.

Lemma stream_app (a b : list string) :
  stream (a ++ b) = stream a ++ stream b.
Proof.
  induction a as [|x a IH]; [reflexivity|].
  change (x ++ stream (a ++ b) = (x ++ stream a) ++ stream b).
  rewrite IH. symmetry. apply str_app_assoc.
Qed.

Lemma one_line_app (a b : string) :
  one_line (a ++ b) = one_line a && one_line b.
Proof.
  induction a as [|c a IH]; [reflexivity|].
  simpl. rewrite IH. apply andb_assoc.
Qed.

Lemma one_line_of_uint (d : Decimal.uint) :
  one_line (NilEmpty.string_of_uint d) = true.
Proof.
  induction d; simpl; try rewrite IHd; reflexivity.
Qed.

Lemma one_line_of_nonempty_uint (d : Decimal.uint) :
  one_line (NilZero.string_of_uint d) = true.
Proof.
  destruct d; first [reflexivity | apply one_line_of_uint].
Qed.

Lemma one_line_of_int (n : Z) : one_line (Str.of_int n) = true.
Proof.
  unfold Str.of_int, NilZero.string_of_int.
  destruct (Z.to_int n) as [d|d].
  - apply one_line_of_nonempty_uint.
  - change (negb (is_line_feed "-") && one_line (NilZero.string_of_uint d)
            = true).
    rewrite one_line_of_nonempty_uint. reflexivity.
Qed.

(** A text without line feed, written by [print], is one line. *)
Lemma lines_of_print (text rest : string) :
  one_line text = true ->
  lines_of ((text ++ Str.nl) ++ rest) = text :: lines_of rest.
Proof.
  induction text as [|c text IH]; intros H; [reflexivity|].
  simpl in H. apply andb_true_iff in H. destruct H as (Hc & Ht).
  apply negb_true_iff in Hc.
  change ((String c text ++ Str.nl) ++ rest)
    with (String c ((text ++ Str.nl) ++ rest)).
  cbn [lines_of]. rewrite Hc, (IH Ht). reflexivity.
Qed.

Lemma lines_of_bullets (items : list string) (rest : string) :
  forallb one_line items = true ->
  lines_of (stream (map bullet items) ++ rest)
  = (map (append " - ") items ++ lines_of rest)%list.
Proof.
  induction items as [|s items IH]; intros H; [reflexivity|].
  cbn [forallb] in H. apply andb_true_iff in H. destruct H as (Hs & Hi).
  change (lines_of ((bullet s ++ stream (map bullet items)) ++ rest)
          = (" - " ++ s) :: (map (append " - ") items ++ lines_of rest)%list).
  rewrite str_app_assoc. unfold bullet at 1.
  rewrite lines_of_print by (rewrite one_line_app; exact Hs).
  rewrite (IH Hi). reflexivity.
Qed.

Lemma lines_of_section (heading : string) (items : list string)
  (rest : string) :
  one_line heading = true ->
  forallb one_line items = true ->
  lines_of (stream (section_writes heading items) ++ rest)
  = ((if list_truthy items then heading :: map (append " - ") items else [])
     ++ lines_of rest)%list.
Proof.
  intros Hh Hi. unfold section_writes.
  destruct (list_truthy items); [|reflexivity].
  change (lines_of (((heading ++ Str.nl) ++ stream (map bullet items)) ++ rest)
          = heading :: (map (append " - ") items ++ lines_of rest)%list).
  rewrite str_app_assoc, lines_of_print by exact Hh.
  rewrite lines_of_bullets by exact Hi. reflexivity.
Qed.

Lemma prefix_dash (s : string) : prefix " - " (" - " ++ s) = true.
Proof. simpl. destruct s; reflexivity. Qed.

Lemma filter_dashes (items : list string) :
  filter (prefix " - ") (map (append " - ") items) = map (append " - ") items.
Proof.
  induction items as [|s items IH]; [reflexivity|].
  cbn [map filter]. rewrite IH, prefix_dash. reflexivity.
Qed.

Lemma section_dashes (heading : string) (items : list string) :
  prefix " - " heading = false ->
  filter (prefix " - ")
    (if list_truthy items then heading :: map (append " - ") items else [])
  = map (append " - ") items.
Proof.
  intros Hh. destruct items as [|s items]; [reflexivity|].
  cbn [list_truthy filter]. rewrite Hh. apply filter_dashes.
Qed.

Lemma give_feedback_writes
  (score : Z) (strengths weaknesses tips : list string) (w : Sys.World) :
  Sys.stdout (give_feedback score strengths weaknesses tips w) =
  (Sys.stdout w ++ feedback_writes score strengths weaknesses tips)%list.
Proof.
  unfold give_feedback, feedback_writes, section_writes.
  rewrite !print_section_writes.
  cbn [Sys.print Sys.write Sys.stdin Sys.stdout Sys.session_log].
  rewrite <- !app_assoc. reflexivity.
Qed.

(** The lines of the feedback *)
Lemma feedback_lines
  (score : Z) (strengths weaknesses tips : list string) :
  forallb one_line strengths = true ->
  forallb one_line weaknesses = true ->
  forallb one_line tips = true ->
  lines_of (stream (feedback_writes score strengths weaknesses tips)) =
  ([""; "--- Feedback ---";
    ("Score: " ++ Str.of_int score ++ "/10")%string]
   ++ (if list_truthy strengths
       then "Strengths:" :: map (append " - ") strengths else [])
   ++ (if list_truthy weaknesses
       then "Areas to improve:" :: map (append " - ") weaknesses else [])
   ++ (if list_truthy tips
       then "Actionable tips:" :: map (append " - ") tips else [])
   ++ ["----------------"; ""])%list.
Proof.
  intros Hs Hw Ht. unfold feedback_writes.
  rewrite !stream_app.
  change (stream [(Str.nl ++ "--- Feedback ---") ++ Str.nl;
                  ("Score: " ++ Str.of_int score ++ "/10") ++ Str.nl])
    with (Str.nl
            ++ (("--- Feedback ---" ++ Str.nl)
                  ++ ((("Score: " ++ Str.of_int score ++ "/10") ++ Str.nl)
                        ++ ""))).
  assert (Hsc : one_line ("Score: " ++ Str.of_int score ++ "/10") = true)
    by (rewrite !one_line_app, one_line_of_int; reflexivity).
  set (sc := "Score: " ++ Str.of_int score ++ "/10") in *.
  set (S := stream (section_writes "Strengths:" strengths)).
  set (W := stream (section_writes "Areas to improve:" weaknesses)).
  set (T := stream (section_writes "Actionable tips:" tips)).
  rewrite (str_app_assoc Str.nl).
  change (lines_of (Str.nl ++ ?x)) with ("" :: lines_of x).
  rewrite (str_app_assoc ("--- Feedback ---" ++ Str.nl)).
  rewrite lines_of_print by reflexivity.
  rewrite (str_app_assoc (sc ++ Str.nl)).
  rewrite lines_of_print by exact Hsc.
  change ("" ++ ?x) with x.
  subst S W T.
  rewrite lines_of_section by (reflexivity || assumption).
  rewrite lines_of_section by (reflexivity || assumption).
  rewrite lines_of_section by (reflexivity || assumption).
  reflexivity.
Qed.

(** X10.  When no strength, weakness or tip holds a line feed, the lines
    that [give_feedback] prints and that begin with " - " are exactly the
    strengths, then the weaknesses, then the tips, each once, in order, and
    each after " - "; it reads no input and writes no log.  (An item that
    holds line feeds is printed by one call of [print] and spreads over
    several lines.) *)
Theorem give_feedback_bullets
  (score : Z) (strengths weaknesses tips : list string) (w : Sys.World) :
  forallb one_line (strengths ++ weaknesses ++ tips) = true ->
  exists out,
    Sys.stdout (give_feedback score strengths weaknesses tips w) =
    (Sys.stdout w ++ out)%list
    /\ filter (prefix " - ") (lines_of (stream out)) =
       map (append " - ") (strengths ++ weaknesses ++ tips)%list
    /\ Sys.stdin (give_feedback score strengths weaknesses tips w) =
       Sys.stdin w
    /\ Sys.session_log (give_feedback score strengths weaknesses tips w) =
       Sys.session_log w.
Proof.
  intros H. rewrite !forallb_app in H.
  apply andb_true_iff in H. destruct H as (Hs & H).
  apply andb_true_iff in H. destruct H as (Hw & Ht).
  exists (feedback_writes score strengths weaknesses tips).
  split; [apply give_feedback_writes|].
  split;
    [|unfold give_feedback; rewrite !print_section_writes;
      split; reflexivity].
  rewrite feedback_lines by assumption.
  rewrite !filter_app, !section_dashes by reflexivity.
  rewrite !map_app.
  cbn [filter]. rewrite app_nil_r. reflexivity.
Qed.

Lemma give_feedback_bullets_witness :
  exists out,
    Sys.stdout
      (give_feedback (res_score cia_result) (res_strengths cia_result)
         (res_weaknesses cia_result) (res_tips cia_result) (world_of []))
    = (Sys.stdout (world_of []) ++ out)%list
    /\ filter (prefix " - ") (lines_of (stream out))
       = map (append " - ")
           (res_strengths cia_result ++ res_weaknesses cia_result
              ++ res_tips cia_result)%list
    /\ Sys.stdin
         (give_feedback (res_score cia_result) (res_strengths cia_result)
            (res_weaknesses cia_result) (res_tips cia_result) (world_of []))
       = Sys.stdin (world_of [])
    /\ Sys.session_log
         (give_feedback (res_score cia_result) (res_strengths cia_result)
            (res_weaknesses cia_result) (res_tips cia_result) (world_of []))
       = Sys.session_log (world_of []).
Proof.
  apply (give_feedback_bullets (res_score cia_result)
           (res_strengths cia_result) (res_weaknesses cia_result)
           (res_tips cia_result) (world_of [])).
  vm_compute. reflexivity.
Defined.

(** A tip that holds line feeds, as the tip made of an explanation of
    several lines, is printed over several lines, and any of them can begin
    with " - ". *)
Example feedback_of_a_tip_of_two_lines :
  filter (prefix " - ")
    (lines_of
       (stream
          (feedback_writes 3 [] []
             [("Review the key concept: CIA" ++ Str.nl ++ " - see NIST")%string])))
  = [" - Review the key concept: CIA"; " - see NIST"].
Proof. reflexivity. Qed.

(** * The index of the questions and [api_evaluate] *)

Lemma lookup_set (k k' : string) (v : Question) (d : Dict.t) :
  Dict.lookup k (Dict.set k' v d) =
  if String.eqb k k' then Some v else Dict.lookup k d.
Proof.
  induction d as [|[k'' v''] d IH]; [reflexivity|].
  simpl. destruct (String.eqb_spec k' k'') as [->|Hne]; simpl.
  - destruct (String.eqb k k''); reflexivity.
  - rewrite IH.
    destruct (String.eqb_spec k k'') as [->|Hk]; [|reflexivity].
    destruct (String.eqb_spec k'' k'); [congruence|reflexivity].
Qed.

Lemma find_after {A : Type} (f : A -> bool) (l : list A) (x : A) :
  find f (l ++ [x]) =
  match find f l with
  | Some y => Some y
  | None => if f x then Some x else None
  end.
Proof.
  induction l as [|y l IH]; [reflexivity|].
  simpl. destruct (f y); [reflexivity|exact IH].
Qed.

Lemma index_by_id_lookup (questions : list Question) (d0 d : Dict.t)
  (k : string) :
  index_by_id questions d0 = inr d ->
  Dict.lookup k d =
  match find (has_id k) (rev questions) with
  | Some q => Some q
  | None => Dict.lookup k d0
  end.
Proof.
  revert d0. induction questions as [|q rest IH]; intros d0 H.
  - simpl in H. injection H as <-. reflexivity.
  - simpl in H. destruct (q_id q) as [k'|] eqn:Eid; [|discriminate H].
    rewrite (IH _ H). simpl rev. rewrite find_after, lookup_set.
    assert (Hq : has_id k q = String.eqb k k')
      by (unfold has_id; rewrite Eid; reflexivity).
    rewrite Hq.
    destruct (find (has_id k) (rev rest)); [reflexivity|].
    destruct (String.eqb k k'); reflexivity.
Qed.

Lemma questions_by_id_lookup_eq
  (questions : list Question) (d : Dict.t) (k : string) :
  questions_by_id questions = inr d ->
  Dict.lookup k d = find (has_id k) (rev questions).
Proof.
  intros H. rewrite (index_by_id_lookup questions [] d k H).
  destruct (find (has_id k) (rev questions)); reflexivity.
Qed.

(** X11.  In the index [QUESTIONS_BY_ID] an id stands for the last question
    of the list that has it: an earlier question with the same id cannot be
    reached through the handlers. *)
Theorem questions_by_id_last_wins
  (questions : list Question) (d : Dict.t) (k : string) :
  questions_by_id questions = inr d ->
  Dict.lookup k d = find (has_id k) (rev questions).
Proof.
  apply questions_by_id_lookup_eq.
Qed.

(** X12.  [/api/evaluate] always answers, and no exception leaves it: it
    answers 200 with the result of [evaluate_answer], whose score is between
    0 and 10, when the id sent is not empty and is the id of a question, and
    400 "invalid question id" otherwise; an absent answer is evaluated as
    the empty one. *)
Theorem api_evaluate_answers
  (questions : list Question) (d : Dict.t) (data : Request) :
  questions_by_id questions = inr d ->
  (exists k q r,
      question_id data = Some k /\ k <> ""
      /\ In q questions /\ q_id q = Some k
      /\ evaluate_answer q (get (answer data) "") = Py.ok r
      /\ 0 <= res_score r <= 10
      /\ api_evaluate d data = Py.ok (Json200 r))
  \/ ((question_id data = None \/ question_id data = Some ""
       \/ forall q, In q questions -> q_id q <> question_id data)
      /\ api_evaluate d data = Py.ok (Json400 "invalid question id")).
Proof.
  intros H. unfold api_evaluate.
  destruct (question_id data) as [k|]; [|right; split; [left|]; reflexivity].
  destruct k as [|c k]; [right; split; [right; left|]; reflexivity|].
  cbn [str_truthy negb].
  rewrite (questions_by_id_lookup_eq questions d (String c k) H).
  destruct (find (has_id (String c k)) (rev questions)) as [q|] eqn:Ef.
  - left. apply find_some in Ef. destruct Ef as (Hin & Hid).
    apply in_rev in Hin. unfold has_id in Hid.
    destruct (q_id q) as [k'|] eqn:Eq; [|discriminate Hid].
    apply String.eqb_eq in Hid. subst k'.
    destruct (branch_returns q (get (answer data) ""))
      as (l & reasoning & Eb & Hs).
    destruct (get (answer data) "") as [|c' a] eqn:Ea.
    + exists (String c k), q, no_answer.
      repeat (split; [first [reflexivity | discriminate | assumption
                            | simpl; lia]|]).
      reflexivity.
    + exists (String c k), q, (final_polish l reasoning).
      assert (Ev : evaluate_answer q (String c' a)
                   = Py.ok (final_polish l reasoning)).
      { rewrite evaluate_answer_nonempty by discriminate.
        rewrite Eb. reflexivity. }
      rewrite Ev, final_polish_score.
      repeat (split; [first [reflexivity | discriminate | assumption]|]).
      reflexivity.
  - right. split; [|reflexivity].
    right; right. intros q Hin Hid.
    apply in_rev in Hin.
    pose proof (find_none _ _ Ef q Hin) as Hn.
    unfold has_id in Hn. rewrite Hid, String.eqb_refl in Hn. discriminate Hn.
Qed.

Lemma questions_by_id_last_wins_witness :
  Dict.lookup "q1" duplicated_index =
  find (has_id "q1") (rev duplicated_pool).
Proof.
  apply (questions_by_id_last_wins duplicated_pool duplicated_index "q1").
  reflexivity.
Defined.

Lemma api_evaluate_answers_witness :
  (exists k q r,
      question_id sample_request = Some k /\ k <> ""
      /\ In q duplicated_pool /\ q_id q = Some k
      /\ evaluate_answer q (get (answer sample_request) "") = Py.ok r
      /\ 0 <= res_score r <= 10
      /\ api_evaluate duplicated_index sample_request = Py.ok (Json200 r))
  \/ ((question_id sample_request = None
       \/ question_id sample_request = Some ""
       \/ forall q, In q duplicated_pool -> q_id q <> question_id sample_request)
      /\ api_evaluate duplicated_index sample_request
         = Py.ok (Json400 "invalid question id")).
Proof.
  apply (api_evaluate_answers duplicated_pool duplicated_index sample_request).
  reflexivity.
Defined.

(** * The loop over the questions *)

Lemma explain_concept_keeps (q : Question) (w : Sys.World) :
  Sys.stdin (explain_concept q w) = Sys.stdin w
  /\ Sys.session_log (explain_concept q w) = Sys.session_log w.
Proof.
  unfold explain_concept. rewrite print_section_writes.
  destruct (q_explanation q) as [[|c e]|]; split; reflexivity.
Qed.

Lemma follow_up_from_keeps_log (q : Question) (lines : list string)
  (w : Sys.World) :
  Sys.session_log (snd (follow_up_from q lines w)) = Sys.session_log w.
Proof.
  revert w. induction lines as [|line rest IH]; intros w; [reflexivity|].
  cbn [follow_up_from].
  destruct (_ || _ || _); [reflexivity|].
  destruct (String.eqb _ "explain").
  - rewrite IH. rewrite (proj2 (explain_concept_keeps q _)). reflexivity.
  - destruct (String.eqb _ "quit"); [reflexivity|].
    rewrite IH. reflexivity.
Qed.

Lemma adapt_keeps (scores : list Z) (difficulty : string) (w : Sys.World) :
  Sys.stdin (snd (adapt scores difficulty w)) = Sys.stdin w
  /\ Sys.session_log (snd (adapt scores difficulty w)) = Sys.session_log w.
Proof.
  unfold adapt.
  destruct (_ && _); [split; reflexivity|].
  destruct (_ && _); split; reflexivity.
Qed.

Lemma give_feedback_keeps
  (score : Z) (strengths weaknesses tips : list string) (w : Sys.World) :
  Sys.stdin (give_feedback score strengths weaknesses tips w) = Sys.stdin w
  /\ Sys.session_log (give_feedback score strengths weaknesses tips w)
     = Sys.session_log w.
Proof.
  unfold give_feedback. rewrite !print_section_writes. split; reflexivity.
Qed.

Lemma get_multiline_input_keeps_log (prompt : string) (w : Sys.World) :
  Sys.session_log (snd (get_multiline_input prompt w)) = Sys.session_log w.
Proof. reflexivity. Qed.

Lemma answer_reads_stdin_only (prompt : string) (w w' : Sys.World) :
  Sys.stdin w = Sys.stdin w' ->
  fst (get_multiline_input prompt w) = fst (get_multiline_input prompt w')
  /\ Sys.stdin (snd (get_multiline_input prompt w))
     = Sys.stdin (snd (get_multiline_input prompt w')).
Proof.
  intros H. unfold get_multiline_input. cbn [fst snd].
  change (Sys.stdin (Sys.print prompt w)) with (Sys.stdin w).
  change (Sys.stdin (Sys.print prompt w')) with (Sys.stdin w').
  rewrite H. split; reflexivity.
Qed.

(** The follow-up loop, one [input] at a time *)
Lemma follow_up_step (q : Question) (w : Sys.World) :
  follow_up q w =
  match Sys.input follow_up_prompt w with
  | (inl e, w1) => (inl e, w1)
  | (inr line, w1) =>
      let nxt := Str.lower (Str.strip line) in
      if String.eqb nxt "continue" || String.eqb nxt "c" || String.eqb nxt ""
      then (inr tt, w1)
      else if String.eqb nxt "explain" then follow_up q (explain_concept q w1)
      else if String.eqb nxt "quit" then
        (inr tt, Sys.print "Ending session." w1)
      else
        follow_up q
          (Sys.print "Unknown command. Use 'explain', 'continue', or 'quit'."
             w1)
  end.
Proof.
  unfold follow_up, Sys.input. cbn [follow_up_prompt].
  change (Sys.stdin (Sys.write follow_up_prompt w)) with (Sys.stdin w).
  destruct (Sys.stdin w) as [|line rest]; [reflexivity|].
  cbn [follow_up_from]. cbv zeta.
  rewrite (proj1 (explain_concept_keeps q _)). reflexivity.
Qed.

Section LoopFacts.

Variable title : string -> string.
Variable timestamp : Sys.World -> string.

Lemma record_answer_next (q : Question) (r : Result) (st st' : Session)
  (w w' : Sys.World) (c : control) :
  record_answer timestamp q r st w = (inr (c, st'), w') ->
  c = Next
  /\ s_scores st' = (s_scores st ++ [res_score r])%list
  /\ s_details st' = (s_details st ++ [(q, res_score r, res_reason r)])%list
  /\ exists line, Sys.session_log w' = (Sys.session_log w ++ [line])%list.
Proof.
  unfold record_answer. intros H.
  match type of H with
  | context [follow_up q ?x] =>
      pose proof (follow_up_from_keeps_log q (Sys.stdin x) x) as Hlog;
      fold (follow_up q x) in Hlog;
      destruct (follow_up q x) as [[e|u] w2]
  end; [discriminate H|].
  injection H as <- <- <-. cbn [s_scores s_details].
  split; [reflexivity|]. split; [reflexivity|]. split; [reflexivity|].
  cbn [snd] in Hlog. rewrite Hlog.
  rewrite (proj2 (adapt_keeps _ _ _)).
  cbn [log_session Sys.session_log].
  rewrite (proj2 (give_feedback_keeps _ _ _ _ _)).
  eexists. reflexivity.
Qed.

(** X13.  The body of the loop leaves the loop exactly when the answer to
    the question is "quit", in any letter case and with white space around
    it.  What is typed at the follow-up prompt, "quit" included, never ends
    the session: the next question is asked. *)
Theorem ask_breaks_only_on_quit_answer
  (total i : Z) (q : Question) (st st' : Session) (w w' : Sys.World)
  (c : control) :
  ask title timestamp total i q st w = (inr (c, st'), w') ->
  is_break c =
  String.eqb
    (Str.lower (Str.strip (fst (get_multiline_input default_prompt w))))
    "quit".
Proof.
  unfold ask. intros H.
  destruct (q_question q) as [text|]; [|discriminate H].
  match type of H with
  | context [get_multiline_input default_prompt ?x] =>
      destruct (answer_reads_stdin_only default_prompt x w eq_refl) as (Ha & _);
      rewrite Ha in H
  end.
  destruct (String.eqb _ "quit").
  - injection H as <- <- <-. reflexivity.
  - destruct (String.eqb _ "skip").
    + injection H as <- <- <-. reflexivity.
    + destruct (evaluate_answer q _) as [e|r]; [discriminate H|].
      apply record_answer_next in H. destruct H as (-> & _). reflexivity.
Qed.

Lemma evaluate_answer_result (q : Question) (a : string) (r : Result) :
  evaluate_answer q a = Py.ok r ->
  0 <= res_score r <= 10 /\ String.eqb (res_reason r) "skipped" = false.
Proof.
  intros H. destruct a as [|c a].
  - injection H as <-. split; [simpl; lia|reflexivity].
  - rewrite evaluate_answer_nonempty in H by discriminate.
    destruct (branch_returns q (String c a)) as (l & reasoning & E & Hs).
    rewrite E in H. injection H as <-.
    rewrite final_polish_score, final_polish_reason.
    split; [exact Hs|reflexivity].
Qed.

(** One turn of the loop: the entries [ds] it adds to [details] and the
    lines [logs] it adds to the log. *)
Lemma ask_step
  (total i : Z) (q : Question) (st st' : Session) (w w' : Sys.World)
  (c : control) :
  ask title timestamp total i q st w = (inr (c, st'), w') ->
  exists ds logs,
    s_details st' = (s_details st ++ ds)%list
    /\ s_scores st' = (s_scores st ++ map score_of ds)%list
    /\ Sys.session_log w' = (Sys.session_log w ++ logs)%list
    /\ List.length logs = List.length (filter evaluated ds)
    /\ Forall (fun d => 0 <= score_of d <= 10) ds
    /\ map question_in ds = match c with Next => [q] | Break => [] end.
Proof.
  unfold ask. intros H.
  destruct (q_question q) as [text|]; [|discriminate H].
  destruct (String.eqb _ "quit").
  - injection H as <- <- <-. exists [], [].
    rewrite !app_nil_r. repeat split; constructor.
  - destruct (String.eqb _ "skip").
    + injection H as <- <- <-. exists [(q, 0, "skipped")], [].
      rewrite app_nil_r. cbn [s_details s_scores map].
      split; [reflexivity|]. split; [reflexivity|]. split; [reflexivity|].
      split; [reflexivity|]. split; [|reflexivity].
      constructor; [unfold score_of; simpl; lia|constructor].
    + destruct (evaluate_answer q _) as [e|r] eqn:Ev; [discriminate H|].
      apply evaluate_answer_result in Ev. destruct Ev as (Hs & Hr).
      apply record_answer_next in H.
      destruct H as (-> & Hsc & Hd & line & Hl).
      exists [(q, res_score r, res_reason r)], [line].
      split; [exact Hd|]. split; [exact Hsc|]. split; [exact Hl|].
      split; [unfold evaluated; cbn [filter snd]; rewrite Hr; reflexivity|].
      split; [constructor; [exact Hs|constructor]|reflexivity].
Qed.

Lemma ask_from_steps
  (total : Z) (pool : list Question) (i : Z) (st st' : Session)
  (w w' : Sys.World) :
  ask_from title timestamp total i pool st w = (inr st', w') ->
  exists ds logs,
    s_details st' = (s_details st ++ ds)%list
    /\ s_scores st' = (s_scores st ++ map score_of ds)%list
    /\ Sys.session_log w' = (Sys.session_log w ++ logs)%list
    /\ List.length logs = List.length (filter evaluated ds)
    /\ Forall (fun d => 0 <= score_of d <= 10) ds
    /\ map question_in ds = firstn (List.length ds) pool.
Proof.
  revert i st w. induction pool as [|q rest IH]; intros i st w H.
  - simpl in H. injection H as <- <-. exists [], [].
    rewrite !app_nil_r. repeat split; constructor.
  - cbn [ask_from] in H.
    destruct (ask title timestamp total i q st w) as [[e|[c st1]] w1] eqn:Ea;
      [discriminate H|].
    destruct (ask_step _ _ _ _ _ _ _ _ Ea)
      as (ds1 & logs1 & Hd1 & Hs1 & Hl1 & Hn1 & Hr1 & Hq1).
    destruct c.
    + destruct (IH _ _ _ H)
        as (ds2 & logs2 & Hd2 & Hs2 & Hl2 & Hn2 & Hr2 & Hq2).
      exists (ds1 ++ ds2)%list, (logs1 ++ logs2)%list.
      rewrite Hd2, Hd1, Hs2, Hs1, Hl2, Hl1, <- !app_assoc.
      rewrite map_app, filter_app, !length_app, Hn1, Hn2.
      repeat (split; [reflexivity|]).
      split; [apply Forall_app; split; assumption|].
      rewrite map_app, Hq1, Hq2.
      assert (Hlen : List.length ds1 = 1%nat)
        by (rewrite <- (length_map question_in), Hq1; reflexivity).
      rewrite Hlen. reflexivity.
    + injection H as <- <-. exists ds1, logs1.
      repeat (split; [assumption|]).
      assert (Hnil : ds1 = [])
        by (destruct ds1; [reflexivity|discriminate Hq1]).
      rewrite Hnil. reflexivity.
Qed.

(** X14.  When the loop over the questions ends without an exception,
    [details] holds one entry for each question asked and answered or
    skipped, in the order of the pool and from its first question on;
    [scores] holds the scores of these entries, in the same order, and each
    score is between 0 and 10. *)
Theorem session_records_in_order
  (pool : list Question) (difficulty : string) (st : Session)
  (w w' : Sys.World) :
  ask_questions title timestamp pool difficulty w = (inr st, w') ->
  map question_in (s_details st) = firstn (List.length (s_details st)) pool
  /\ s_scores st = map score_of (s_details st)
  /\ Forall (fun s => 0 <= s <= 10) (s_scores st).
Proof.
  unfold ask_questions. intros H.
  destruct (ask_from_steps _ _ _ _ _ _ _ H)
    as (ds & logs & Hd & Hs & _ & _ & Hr & Hq).
  cbn [s_details s_scores app] in Hd, Hs. rewrite Hd, Hs.
  split; [exact Hq|]. split; [reflexivity|].
  apply Forall_map. exact Hr.
Qed.


Lemma read_all_when_no_blank (lines acc : list string) :
  Forall not_blank lines -> snd (read_answer_lines lines acc) = [].
Proof.
  revert acc. induction lines as [|line rest IH]; intros acc H; [reflexivity|].
  inversion H as [|? ? Hline Hrest]; subst.
  simpl. rewrite strip_empty. unfold not_blank in Hline. rewrite Hline.
  apply IH. exact Hrest.
Qed.

(** X16.  When the input ends while an answer is being typed (no blank line
    closes it) and the answer is neither "quit" nor "skip", the answer is
    still evaluated and written to the log, and then the follow-up prompt
    raises [EOFError], which nothing catches: the session ends on the
    exception. *)
Theorem ask_ends_on_eof_at_prompt
  (total i : Z) (q : Question) (text : string) (st : Session)
  (w : Sys.World) :
  q_question q = Some text ->
  Forall not_blank (Sys.stdin w) ->
  Str.lower (Str.strip (fst (get_multiline_input default_prompt w)))
  <> "quit" ->
  Str.lower (Str.strip (fst (get_multiline_input default_prompt w)))
  <> "skip" ->
  fst (ask title timestamp total i q st w) = inl Sys.EOFError
  /\ exists line,
       Sys.session_log (snd (ask title timestamp total i q st w)) =
       (Sys.session_log w ++ [line])%list.
Proof.
  intros Hq Hall Hquit Hskip. unfold ask. rewrite Hq.
  match goal with
  | |- context [get_multiline_input default_prompt ?x] =>
      destruct (answer_reads_stdin_only default_prompt x w eq_refl)
        as (Ha & Hin);
      assert (Hlog : Sys.session_log (snd (get_multiline_input default_prompt x))
                     = Sys.session_log w) by reflexivity;
      rewrite Ha; set (w1 := snd (get_multiline_input default_prompt x)) in *
  end.
  assert (Hend : Sys.stdin w1 = []).
  { rewrite Hin. unfold get_multiline_input. cbn [snd Sys.set_stdin Sys.stdin].
    apply read_all_when_no_blank. exact Hall. }
  destruct (String.eqb_spec
              (Str.lower (Str.strip (fst (get_multiline_input default_prompt w))))
              "quit"); [contradiction|].
  destruct (String.eqb_spec
              (Str.lower (Str.strip (fst (get_multiline_input default_prompt w))))
              "skip"); [contradiction|].
  set (a := fst (get_multiline_input default_prompt w)).
  assert (Hev : exists r, evaluate_answer q a = Py.ok r).
  { destruct a as [|c a'].
    - exists no_answer. reflexivity.
    - rewrite evaluate_answer_nonempty by discriminate.
      destruct (branch_returns q (String c a')) as (l & reasoning & -> & _).
      eexists. reflexivity. }
  destruct Hev as (r & ->).
  unfold Py.ok. cbv beta iota.
  unfold record_answer, follow_up.
  rewrite (proj1 (adapt_keeps _ _ _)).
  cbn [log_session Sys.stdin Sys.session_log].
  rewrite (proj1 (give_feedback_keeps _ _ _ _ _)), Hend.
  cbn [follow_up_from fst snd Sys.write Sys.session_log].
  split; [reflexivity|].
  rewrite (proj2 (adapt_keeps _ _ _)).
  cbn [log_session Sys.session_log].
  rewrite (proj2 (give_feedback_keeps _ _ _ _ _)), Hlog.
  eexists. reflexivity.
Qed.

Lemma follow_up_from_reads_lines_only (q : Question) (lines : list string)
  (w1 w2 : Sys.World) :
  Sys.stdin w1 = lines -> Sys.stdin w2 = lines ->
  fst (follow_up_from q lines w1) = fst (follow_up_from q lines w2)
  /\ Sys.stdin (snd (follow_up_from q lines w1))
     = Sys.stdin (snd (follow_up_from q lines w2)).
Proof.
  revert w1 w2. induction lines as [|line rest IH]; intros w1 w2 H1 H2.
  - cbn [follow_up_from fst snd Sys.write Sys.stdin]. rewrite H1, H2.
    split; reflexivity.
  - cbn [follow_up_from].
    destruct (_ || _ || _); [split; reflexivity|].
    destruct (String.eqb _ "explain").
    + apply IH; rewrite (proj1 (explain_concept_keeps q _)); reflexivity.
    + destruct (String.eqb _ "quit"); [split; reflexivity|].
      apply IH; reflexivity.
Qed.

Lemma record_answer_same_outcome (q : Question) (r : Result)
  (st1 st2 : Session) (w1 w2 : Sys.World) :
  Sys.stdin w1 = Sys.stdin w2 ->
  s_scores st1 = s_scores st2 ->
  s_details st1 = s_details st2 ->
  turn_outcome (record_answer timestamp q r st1 w1)
  = turn_outcome (record_answer timestamp q r st2 w2).
Proof.
  intros Hw Hs Hd. unfold record_answer, follow_up.
  match goal with
  | |- context [follow_up_from q (Sys.stdin ?x) ?x] =>
      match goal with
      | |- context [follow_up_from q (Sys.stdin ?y) ?y] =>
          lazymatch y with
          | x => fail
          | _ =>
              assert (Hx : Sys.stdin x = Sys.stdin w1)
                by (rewrite (proj1 (adapt_keeps _ _ _));
                    cbn [log_session Sys.stdin];
                    apply (proj1 (give_feedback_keeps _ _ _ _ _)));
              assert (Hy : Sys.stdin y = Sys.stdin w1)
                by (rewrite (proj1 (adapt_keeps _ _ _));
                    cbn [log_session Sys.stdin];
                    rewrite (proj1 (give_feedback_keeps _ _ _ _ _));
                    symmetry; exact Hw);
              rewrite Hx, Hy;
              destruct (follow_up_from_reads_lines_only q (Sys.stdin w1) x y
                          Hx Hy) as (Hf & Hi);
              destruct (follow_up_from q (Sys.stdin w1) x) as [[e1|u1] x'];
              destruct (follow_up_from q (Sys.stdin w1) y) as [[e2|u2] y']
          end
      end
  end; cbn [fst snd] in Hf, Hi; try discriminate Hf.
  - injection Hf as ->. unfold turn_outcome. cbn [fst snd]. rewrite Hi.
    reflexivity.
  - unfold turn_outcome. cbn [fst snd s_scores s_details].
    rewrite Hi, Hs, Hd. reflexivity.
Qed.

Lemma ask_same_outcome (total i : Z) (q : Question) (st1 st2 : Session)
  (w1 w2 : Sys.World) :
  Sys.stdin w1 = Sys.stdin w2 ->
  s_scores st1 = s_scores st2 ->
  s_details st1 = s_details st2 ->
  turn_outcome (ask title timestamp total i q st1 w1)
  = turn_outcome (ask title timestamp total i q st2 w2).
Proof.
  intros Hw Hs Hd. unfold ask.
  destruct (q_question q) as [text|];
    [|unfold turn_outcome; cbn [fst snd Sys.print Sys.write Sys.stdin];
      rewrite Hw; reflexivity].
  match goal with
  | |- context [get_multiline_input default_prompt ?x] =>
      match goal with
      | |- context [get_multiline_input default_prompt ?y] =>
          lazymatch y with
          | x => fail
          | _ =>
              destruct (answer_reads_stdin_only default_prompt x y Hw)
                as (Ha & Hin);
              rewrite Ha;
              set (a := fst (get_multiline_input default_prompt y)) in *;
              set (x' := snd (get_multiline_input default_prompt x)) in *;
              set (y' := snd (get_multiline_input default_prompt y)) in *
          end
      end
  end.
  destruct (String.eqb _ "quit").
  - unfold turn_outcome. cbn [fst snd Sys.print Sys.write Sys.stdin].
    rewrite Hin, Hs, Hd. reflexivity.
  - destruct (String.eqb _ "skip").
    + unfold turn_outcome.
      cbn [fst snd Sys.print Sys.write Sys.stdin s_scores s_details].
      rewrite Hin, Hs, Hd. reflexivity.
    + destruct (evaluate_answer q a) as [e|r].
      * unfold turn_outcome. cbn [fst snd]. rewrite Hin. reflexivity.
      * apply record_answer_same_outcome; assumption.
Qed.

Lemma ask_from_same_outcome (total : Z) (pool : list Question) (i : Z)
  (st1 st2 : Session) (w1 w2 : Sys.World) :
  Sys.stdin w1 = Sys.stdin w2 ->
  s_scores st1 = s_scores st2 ->
  s_details st1 = s_details st2 ->
  outcome (ask_from title timestamp total i pool st1 w1)
  = outcome (ask_from title timestamp total i pool st2 w2).
Proof.
  revert i st1 st2 w1 w2.
  induction pool as [|q rest IH]; intros i st1 st2 w1 w2 Hw Hs Hd.
  - unfold outcome. cbn [ask_from fst snd]. rewrite Hw, Hs, Hd. reflexivity.
  - cbn [ask_from].
    pose proof (ask_same_outcome total i q st1 st2 w1 w2 Hw Hs Hd) as Ht.
    unfold turn_outcome in Ht.
    destruct (ask title timestamp total i q st1 w1) as [[e1|[c1 s1]] x1];
      destruct (ask title timestamp total i q st2 w2) as [[e2|[c2 s2]] x2];
      cbn [fst snd] in Ht; try discriminate Ht.
    + injection Ht as -> Hx. unfold outcome. cbn [fst snd]. rewrite Hx.
      reflexivity.
    + injection Ht as -> Hs' Hd' Hx.
      destruct c2.
      * apply IH; assumption.
      * unfold outcome. cbn [fst snd]. rewrite Hx, Hs', Hd'. reflexivity.
Qed.

(** X17.  The difficulty, which the adaptive rule moves during the session,
    has no effect on the session itself: two runs of the loop on the same
    pool and the same input end with the same scores and details, or with
    the same exception, and leave the same input, whatever difficulty each
    starts from.  The difficulty shows only in the texts written and in the
    log. *)
Theorem difficulty_does_not_steer_session
  (pool : list Question) (d1 d2 : string) (w1 w2 : Sys.World) :
  Sys.stdin w1 = Sys.stdin w2 ->
  outcome (ask_questions title timestamp pool d1 w1)
  = outcome (ask_questions title timestamp pool d2 w2).
Proof.
  intros Hw. unfold ask_questions.
  apply ask_from_same_outcome; [exact Hw|reflexivity|reflexivity].
Qed.

End LoopFacts.

Lemma ask_breaks_only_on_quit_answer_witness :
  is_break Next =
  String.eqb
    (Str.lower
       (Str.strip
          (fst (get_multiline_input default_prompt (world_of typed_lines)))))
    "quit".
Proof.
  apply (ask_breaks_only_on_quit_answer plain_title fixed_time 3 1
           (asked "s1") start state_after_first_turn (world_of typed_lines)
           (snd first_turn) Next).
  vm_compute. reflexivity.
Defined.

Lemma session_records_in_order_witness :
  map question_in (s_details state_after_run)
  = firstn (List.length (s_details state_after_run)) asked_pool
  /\ s_scores state_after_run = map score_of (s_details state_after_run)
  /\ Forall (fun s => 0 <= s <= 10) (s_scores state_after_run).
Proof.
  apply (session_records_in_order plain_title fixed_time asked_pool
           "Intermediate" state_after_run (world_of typed_lines)
           (snd whole_run)).
  vm_compute. reflexivity.
Defined.


Lemma ask_ends_on_eof_at_prompt_witness :
  fst (ask plain_title fixed_time 3 1 (asked "s1") start
         (world_of ["First isolate the host"])) = inl Sys.EOFError
  /\ exists line,
       Sys.session_log
         (snd (ask plain_title fixed_time 3 1 (asked "s1") start
                 (world_of ["First isolate the host"])))
       = (Sys.session_log (world_of ["First isolate the host"]) ++ [line])%list.
Proof.
  apply (ask_ends_on_eof_at_prompt plain_title fixed_time 3 1 (asked "s1")
           "What do you do first?" start
           (world_of ["First isolate the host"])).
  - reflexivity.
  - repeat constructor.
  - vm_compute. discriminate.
  - vm_compute. discriminate.
Defined.

Lemma difficulty_does_not_steer_session_witness :
  outcome (ask_questions plain_title fixed_time asked_pool "Basic"
             (world_of typed_lines))
  = outcome (ask_questions plain_title fixed_time asked_pool "Advanced"
               (world_of typed_lines)).
Proof.
  apply (difficulty_does_not_steer_session plain_title fixed_time asked_pool
           "Basic" "Advanced" (world_of typed_lines) (world_of typed_lines)).
  reflexivity.
Defined.

(** * The adaptive rule *)

Lemma mean_at_least (k sum n : Z) :
  0 < n ->
  Qle_bool (inject_Z k) (inject_Z sum / inject_Z n) = (k * n <=? sum).
Proof.
  intros Hn. pose proof (inject_pos n Hn) as Hq.
  destruct (Z.leb_spec (k * n) sum) as [H|H].
  - apply Qle_bool_iff. apply Qle_shift_div_l; [exact Hq|].
    rewrite <- inject_Z_mult, <- Zle_Qle. exact H.
  - destruct (Qle_bool (inject_Z k) (inject_Z sum / inject_Z n)) eqn:E;
      [|reflexivity].
    apply Qle_bool_iff in E.
    assert (Hm : (inject_Z k * inject_Z n <= inject_Z sum)%Q).
    { apply (Qmult_le_compat_r _ _ (inject_Z n)) in E; [|lra].
      unfold Qdiv in E.
      rewrite <- Qmult_assoc, (Qmult_comm (/ inject_Z n)) in E.
      rewrite Qmult_inv_r, Qmult_1_r in E by lra. exact E. }
    rewrite <- inject_Z_mult, <- Zle_Qle in Hm. lia.
Qed.

Lemma mean_at_most (k sum n : Z) :
  0 < n ->
  Qle_bool (inject_Z sum / inject_Z n) (inject_Z k) = (sum <=? k * n).
Proof.
  intros Hn. pose proof (inject_pos n Hn) as Hq.
  destruct (Z.leb_spec sum (k * n)) as [H|H].
  - apply Qle_bool_iff. apply Qle_shift_div_r; [exact Hq|].
    rewrite <- inject_Z_mult, <- Zle_Qle. exact H.
  - destruct (Qle_bool (inject_Z sum / inject_Z n) (inject_Z k)) eqn:E;
      [|reflexivity].
    apply Qle_bool_iff in E.
    assert (Hm : (inject_Z sum <= inject_Z k * inject_Z n)%Q).
    { apply (Qmult_le_compat_r _ _ (inject_Z n)) in E; [|lra].
      unfold Qdiv in E.
      rewrite <- Qmult_assoc, (Qmult_comm (/ inject_Z n)) in E.
      rewrite Qmult_inv_r, Qmult_1_r in E by lra. exact E. }
    rewrite <- inject_Z_mult, <- Zle_Qle in Hm. lia.
Qed.

(** X18.  The adaptive rule without the mean: with n scores so far, n > 0,
    the difficulty becomes "Advanced" when their sum is at least 8n, else
    "Basic" when their sum is at most 3n, and else stays what it was; so it
    never comes back to "Intermediate" once it has left it. *)
Theorem adapt_compares_sum
  (scores : list Z) (difficulty : string) (w : Sys.World) :
  scores <> [] ->
  fst (adapt scores difficulty w) =
  if 8 * Str.len scores <=? sum_of scores then "Advanced"
  else if sum_of scores <=? 3 * Str.len scores then "Basic"
  else difficulty.
Proof.
  intros Hne. unfold adapt, average.
  destruct scores as [|s0 rest]; [contradiction|].
  cbn [list_truthy].
  assert (Hlen : 0 < Str.len (s0 :: rest))
    by (unfold Str.len; cbn [List.length]; lia).
  change 8%Q with (inject_Z 8). change 3%Q with (inject_Z 3).
  rewrite mean_at_least, mean_at_most by exact Hlen.
  destruct (Z.leb_spec (8 * Str.len (s0 :: rest)) (sum_of (s0 :: rest)))
    as [H8|H8]; cbn [andb].
  - destruct (String.eqb_spec difficulty "Advanced") as [->|_];
      [|reflexivity].
    cbn [negb]. destruct (Z.leb_spec (sum_of (s0 :: rest))
                            (3 * Str.len (s0 :: rest))); [lia|reflexivity].
  - destruct (sum_of (s0 :: rest) <=? 3 * Str.len (s0 :: rest)); cbn [andb];
      [|reflexivity].
    destruct (String.eqb_spec difficulty "Basic") as [->|_]; reflexivity.
Qed.

Lemma adapt_compares_sum_witness :
  fst (adapt [9; 8] "Intermediate" (world_of [])) =
  if 8 * Str.len [9; 8] <=? sum_of [9; 8] then "Advanced"
  else if sum_of [9; 8] <=? 3 * Str.len [9; 8] then "Basic"
  else "Intermediate".
Proof.
  apply (adapt_compares_sum [9; 8] "Intermediate" (world_of [])).
  discriminate.
Defined.

(** * The choice of the difficulty *)

Lemma lower_of_letter (c : ascii) :
  Char.is_ascii_lower (Char.lower c) = true ->
  Char.is_ascii_letter c = true
  /\ Char.upper_ascii c = Char.upper_ascii (Char.lower c).
Proof.
  destruct c as [[] [] [] [] [] [] [] []]; vm_compute; intros H;
    first [discriminate H | split; reflexivity].
Qed.

Lemma lower_of_letters (s : string) :
  Str.all_lower_letters (Str.lower s) = true -> Str.all_letters s = true.
Proof.
  induction s as [|c s IH]; [reflexivity|].
  cbn [Str.lower Str.all_lower_letters Str.all_letters].
  intros H. apply andb_true_iff in H. destruct H as (Hc & Hs).
  rewrite (proj1 (lower_of_letter c Hc)), (IH Hs). reflexivity.
Qed.

Lemma lower_char_idempotent (c : ascii) :
  Char.lower (Char.lower c) = Char.lower c.
Proof.
  destruct c as [[] [] [] [] [] [] [] []]; vm_compute; reflexivity.
Qed.

Lemma lower_idempotent (s : string) : Str.lower (Str.lower s) = Str.lower s.
Proof.
  induction s as [|c s IH]; [reflexivity|].
  cbn [Str.lower]. rewrite lower_char_idempotent, IH. reflexivity.
Qed.

Section DifficultyFacts.

Variable title : string -> string.
Hypothesis title_of_word :
  forall c s,
    Str.all_letters (String c s) = true ->
    title (String c s) = String (Char.upper_ascii c) (Str.lower s).

Lemma title_of_name (d name : string) :
  Str.lower d = name ->
  Str.all_lower_letters name = true ->
  name <> "" ->
  title d = capitalize name.
Proof.
  intros Hl Hn Hne. subst name.
  destruct d as [|c s]; [contradiction Hne; reflexivity|].
  rewrite title_of_word by (apply lower_of_letters; exact Hn).
  cbn [Str.lower capitalize].
  cbn [Str.lower Str.all_lower_letters] in Hn.
  apply andb_true_iff in Hn. destruct Hn as (Hc & Hs).
  rewrite (proj2 (lower_of_letter c Hc)), lower_idempotent. reflexivity.
Qed.

(** X19.  Whatever is typed at the difficulty prompt, in whatever letter
    case, the difficulty the session starts with is exactly "Basic",
    "Intermediate" or "Advanced"; this holds for [str.title] as it is on a
    word of the letters a-z and A-Z. *)
Theorem chosen_difficulty_is_a_name (w w' : Sys.World) (d : string) :
  choose_difficulty title w = (inr d, w') ->
  d = "Basic" \/ d = "Intermediate" \/ d = "Advanced".
Proof.
  unfold choose_difficulty. generalize (Sys.stdin w) as lines.
  intros lines. revert w.
  induction lines as [|line rest IH]; intros w H; [discriminate H|].
  cbn [choose_difficulty_from] in H.
  destruct (String.eqb (Str.strip line) "").
  - injection H as <- _. right; left; reflexivity.
  - destruct (String.eqb_spec (Str.lower (Str.strip line)) "basic") as [E|_].
    + injection H as <- _. left.
      apply (title_of_name _ _ E); [reflexivity|discriminate].
    + destruct (String.eqb_spec (Str.lower (Str.strip line)) "intermediate")
        as [E|_].
      * injection H as <- _. right; left.
        apply (title_of_name _ _ E); [reflexivity|discriminate].
      * destruct (String.eqb_spec (Str.lower (Str.strip line)) "advanced")
          as [E|_].
        -- injection H as <- _. right; right.
           apply (title_of_name _ _ E); [reflexivity|discriminate].
        -- exact (IH _ H).
Qed.

End DifficultyFacts.

Lemma capitalize_of_word (c : ascii) (s : string) :
  Str.all_letters (String c s) = true ->
  capitalize (String c s) = String (Char.upper_ascii c) (Str.lower s).
Proof. reflexivity. Qed.

Lemma chosen_difficulty_is_a_name_witness :
  "Advanced" = "Basic" \/ "Advanced" = "Intermediate"
  \/ "Advanced" = "Advanced".
Proof.
  apply (chosen_difficulty_is_a_name capitalize capitalize_of_word
           (world_of ["expert"; "  aDVANCED "; "left"])
           {| Sys.stdin := ["left"];
              Sys.stdout :=
                [difficulty_prompt;
                 "Please enter Basic, Intermediate, or Advanced." ++ Str.nl;
                 difficulty_prompt];
              Sys.session_log := [] |}
           "Advanced").
  vm_compute. reflexivity.
Defined.

(** * The letter case of the answer *)

Lemma space_lower (c : ascii) :
  Char.is_space (Char.lower c) = Char.is_space c.
Proof.
  destruct c as [[] [] [] [] [] [] [] []]; vm_compute; reflexivity.
Qed.

Lemma flush_length (cur : list ascii) (acc : list string) :
  List.length (Str.flush cur acc) =
  (List.length acc + if list_truthy cur then 1 else 0)%nat.
Proof.
  destruct cur; simpl; [lia|]. rewrite length_app. reflexivity.
Qed.

Lemma split_from_lower (s : string) (cur cur' : list ascii)
  (acc acc' : list string) :
  list_truthy cur = list_truthy cur' ->
  List.length acc = List.length acc' ->
  List.length (Str.split_from (Str.lower s) cur' acc')
  = List.length (Str.split_from s cur acc).
Proof.
  revert cur cur' acc acc'.
  induction s as [|c s IH]; intros cur cur' acc acc' Hc Ha.
  - cbn [Str.lower Str.split_from]. rewrite !flush_length, Hc, Ha. reflexivity.
  - cbn [Str.lower Str.split_from]. rewrite space_lower.
    destruct (Char.is_space c).
    + apply IH; [reflexivity|]. rewrite !flush_length, Hc, Ha. reflexivity.
    + apply IH; [reflexivity|exact Ha].
Qed.

Lemma split_lower_len (s : string) :
  Str.len (Str.split (Str.lower s)) = Str.len (Str.split s).
Proof.
  unfold Str.len, Str.split. f_equal.
  apply split_from_lower; reflexivity.
Qed.

(** X20.  The letter case of the answer does not count: the answer and the
    answer in lower case get the same result, for every question. *)
Theorem evaluate_answer_ignores_case (q : Question) (a : string) :
  evaluate_answer q (Str.lower a) = evaluate_answer q a.
Proof.
  unfold evaluate_answer.
  replace (str_truthy (Str.lower a)) with (str_truthy a)
    by (destruct a; reflexivity).
  destruct (str_truthy a); [|reflexivity]. cbn [negb].
  unfold branch, technical_branch, behavioral_branch, scenario_branch.
  rewrite !lower_idempotent, !split_lower_len. reflexivity.
Qed.

(** * The closing rule and the score *)

Lemma branch_strengths (q : Question) (a : string) (l : locals)
  (reasoning : string) :
  branch q a = Py.ok (l, reasoning) ->
  existsb (String.eqb good_answer) (strengths l) = false
  /\ existsb (String.eqb decent_answer) (strengths l) = false.
Proof.
  unfold branch, technical_branch, behavioral_branch, scenario_branch.
  intros H.
  destruct (String.eqb _ "technical").
  - destruct (list_truthy (get (q_keywords q) [])) eqn:Hk.
    + rewrite truediv_ok in H by (apply len_pos in Hk; lia).
      cbn [Py.bind Py.ok] in H. unfold Py.ok in H.
      injection H as <- _.
      repeat match goal with
             | |- context [if ?b then _ else _] => destruct b
             end; split; reflexivity.
    + cbn [Py.bind Py.ok] in H. unfold Py.ok in H.
      injection H as <- _.
      repeat match goal with
             | |- context [if ?b then _ else _] => destruct b
             end; split; reflexivity.
  - destruct (String.eqb _ "behavioral").
    + unfold Py.ok in H. injection H as <- _.
      repeat match goal with
             | |- context [if ?b then _ else _] => destruct b
             end; split; reflexivity.
    + destruct (list_truthy (get (q_keywords q) [])) eqn:Hk.
      * rewrite truediv_ok in H by (apply len_pos in Hk; lia).
        cbn [Py.bind Py.ok] in H. unfold Py.ok in H.
        injection H as <- _.
        repeat match goal with
               | |- context [if ?b then _ else _] => destruct b
               end; split; reflexivity.
      * cbn [Py.bind Py.ok] in H. unfold Py.ok in H.
        injection H as <- _.
        repeat match goal with
               | |- context [if ?b then _ else _] => destruct b
               end; split; reflexivity.
Qed.

(** X21.  The closing strengths agree with the score: the result lists
    "Good answer - clear and thorough" (with a long dash) exactly when the
    score is 8 or more, and "Decent answer; with room to add more specifics
    or examples" exactly when the score is 5, 6 or 7. *)
Theorem closing_strength_matches_score
  (q : Question) (a : string) (r : Result) :
  evaluate_answer q a = Py.ok r ->
  existsb (String.eqb good_answer) (res_strengths r) = (res_score r >=? 8)
  /\ existsb (String.eqb decent_answer) (res_strengths r)
     = (res_score r >=? 5) && negb (res_score r >=? 8).
Proof.
  intros H. destruct a as [|c a].
  - injection H as <-. split; reflexivity.
  - rewrite evaluate_answer_nonempty in H by discriminate.
    destruct (branch_returns q (String c a)) as (l & reasoning & E & _).
    rewrite E in H. cbn [Py.bind Py.ok fst snd] in H. unfold Py.ok in H.
    injection H as <-.
    destruct (branch_strengths _ _ _ _ E) as (Hg & Hd).
    unfold final_polish.
    destruct (score l >=? 8) eqn:E8.
    + cbn [res_strengths res_score add_strength strengths score].
      rewrite !existsb_app, Hg, Hd, E8.
      assert (E5 : (score l >=? 5) = true) by lia.
      rewrite E5. split; reflexivity.
    + destruct (score l >=? 5) eqn:E5;
        cbn [res_strengths res_score add_strength strengths score];
        rewrite ?existsb_app, Hg, Hd, E8, E5; split; reflexivity.
Qed.

Lemma closing_strength_matches_score_witness :
  existsb (String.eqb good_answer) (res_strengths cia_result)
  = (res_score cia_result >=? 8)
  /\ existsb (String.eqb decent_answer) (res_strengths cia_result)
     = (res_score cia_result >=? 5) && negb (res_score cia_result >=? 8).
Proof.
  apply (closing_strength_matches_score cia_question cia_answer cia_result).
  vm_compute. reflexivity.
Defined.

(** * [evaluate_answer] on the state of the process *)

Lemma update_after (h l : list (list string)) (i : nat)
  (f : list string -> list string) :
  Mem.update (List.length h + i) f (h ++ l) = (h ++ Mem.update i f l)%list.
Proof.
  induction h as [|x h IH]; [reflexivity|].
  cbn [List.length Nat.add app Mem.update]. rewrite IH. reflexivity.
Qed.

Lemma nth_after (h l : list (list string)) (i : nat) :
  nth (List.length h + i) (h ++ l) [] = nth i l [].
Proof. apply app_nth2_plus. Qed.

Lemma update_at_end (h l : list (list string))
  (f : list string -> list string) :
  Mem.update (List.length h) f (h ++ l) = (h ++ Mem.update 0 f l)%list.
Proof.
  rewrite <- (Nat.add_0_r (List.length h)) at 1. apply update_after.
Qed.

Lemma nth_at_end (h l : list (list string)) :
  nth (List.length h) (h ++ l) [] = nth 0 l [].
Proof.
  rewrite <- (Nat.add_0_r (List.length h)) at 1. apply nth_after.
Qed.

Ltac run_on_heap :=
  repeat first
    [ progress cbv beta iota delta
        [Mem.bind Mem.ret Mem.append Mem.read Mem.lift Mem.set_heap
         Mem.new_list Mem.heap Mem.generator Mem.console Mem.contents
         at_strengths at_weaknesses at_tips at_reasoning_parts four_from
         fst snd score strengths weaknesses tips reasoning_parts
         set_score add_strength add_weakness add_tip add_part initial
         objects_of Py.bind Py.ok]
    | progress cbn [Mem.update nth app list_truthy]
    | rewrite update_after
    | rewrite nth_after
    | rewrite update_at_end
    | rewrite nth_at_end
    | match goal with
      | |- context [if ?b then _ else _] =>
          lazymatch b with
          | context [if _ then _ else _] => fail
          | _ => destruct b eqn:?
          end
      end ].

Section ProcessFacts.

Variable G : Type.

Lemma technical_on_refines (h : list (list string)) (g : G) (c : Sys.World)
  (keywords : list string) (explanation answer_text : string) :
  exists l reasoning,
    technical_branch keywords explanation answer_text = Py.ok (l, reasoning)
    /\ technical_on G (four_from (List.length h)) keywords explanation
         answer_text
         {| Mem.heap := h ++ [[]; []; []; []]; Mem.generator := g;
            Mem.console := c |}
       = (inr (score l, reasoning),
          {| Mem.heap := h ++ objects_of l; Mem.generator := g;
             Mem.console := c |}).
Proof.
  unfold technical_on, technical_branch.
  destruct (list_truthy keywords) eqn:Hk.
  - rewrite truediv_ok by (apply len_pos in Hk; lia).
    cbv zeta. run_on_heap; do 2 eexists; split; reflexivity.
  - cbv zeta. run_on_heap; do 2 eexists; split; reflexivity.
Qed.

Lemma behavioral_on_refines (h : list (list string)) (g : G) (c : Sys.World)
  (answer_text : string) :
  exists l reasoning,
    behavioral_branch answer_text = Py.ok (l, reasoning)
    /\ behavioral_on G (four_from (List.length h)) answer_text
         {| Mem.heap := h ++ [[]; []; []; []]; Mem.generator := g;
            Mem.console := c |}
       = (inr (score l, reasoning),
          {| Mem.heap := h ++ objects_of l; Mem.generator := g;
             Mem.console := c |}).
Proof.
  unfold behavioral_on, behavioral_branch.
  cbv zeta. run_on_heap; do 2 eexists; split; reflexivity.
Qed.

Lemma scenario_on_refines (h : list (list string)) (g : G) (c : Sys.World)
  (keywords : list string) (answer_text : string) :
  exists l reasoning,
    scenario_branch keywords answer_text = Py.ok (l, reasoning)
    /\ scenario_on G (four_from (List.length h)) keywords answer_text
         {| Mem.heap := h ++ [[]; []; []; []]; Mem.generator := g;
            Mem.console := c |}
       = (inr (score l, reasoning),
          {| Mem.heap := h ++ objects_of l; Mem.generator := g;
             Mem.console := c |}).
Proof.
  unfold scenario_on, scenario_branch.
  destruct (list_truthy keywords) eqn:Hk.
  - rewrite truediv_ok by (apply len_pos in Hk; lia).
    cbv zeta. run_on_heap; do 2 eexists; split; reflexivity.
  - cbv zeta. run_on_heap; do 2 eexists; split; reflexivity.
Qed.

(** The branch the question's type selects, on the process *)
Lemma branch_on_refines (h : list (list string)) (g : G) (c : Sys.World)
  (q : Question) (a : string) :
  exists l reasoning,
    branch q a = Py.ok (l, reasoning)
    /\ (if String.eqb (get (q_type q) "technical") "technical" then
          technical_on G (four_from (List.length h))
            (get (q_keywords q) []) (get (q_explanation q) "") a
        else if String.eqb (get (q_type q) "technical") "behavioral" then
          behavioral_on G (four_from (List.length h)) a
        else
          scenario_on G (four_from (List.length h)) (get (q_keywords q) []) a)
         {| Mem.heap := h ++ [[]; []; []; []]; Mem.generator := g;
            Mem.console := c |}
       = (inr (score l, reasoning),
          {| Mem.heap := h ++ objects_of l; Mem.generator := g;
             Mem.console := c |}).
Proof.
  unfold branch.
  destruct (String.eqb _ "technical"); [apply technical_on_refines|].
  destruct (String.eqb _ "behavioral");
    [apply behavioral_on_refines|apply scenario_on_refines].
Qed.

Lemma evaluate_answer_on_refines (q : Question) (a : string)
  (p : Mem.Process G) :
  exists added,
    observe (evaluate_answer_on G q a p) = evaluate_answer q a
    /\ snd (evaluate_answer_on G q a p)
       = Mem.set_heap (Mem.heap p ++ added) p
    /\ Forall (fun address => (List.length (Mem.heap p) <= address)%nat)
         (addresses_of (evaluate_answer_on G q a p)).
Proof.
  destruct p as [h g c]. unfold evaluate_answer_on, evaluate_answer.
  destruct a as [|c0 a]; cbn [str_truthy negb].
  - exists [[]; ["No response."];
            ["Try to answer the question; use STAR for behavioral answers or outline steps for technical ones."]].
    cbv beta iota delta [Mem.bind Mem.new_list Mem.ret Mem.set_heap Mem.heap
                         Mem.generator Mem.console].
    rewrite !length_app. cbn [List.length].
    rewrite <- !Nat.add_assoc. cbn [Nat.add].
    rewrite <- !app_assoc. cbn [app].
    unfold observe, addresses_of, Mem.contents, no_answer.
    cbn [fst snd Mem.heap].
    rewrite nth_at_end, !nth_after. cbn [nth].
    split; [reflexivity|]. split; [reflexivity|].
    repeat constructor; lia.
  - destruct (branch_on_refines h g c q (String c0 a))
      as (l & reasoning & Hb & Hrun).
    exists (objects_of (polished l)).
    fold (branch q (String c0 a)). rewrite Hb.
    cbv zeta.
    cbv beta iota delta [Mem.bind Mem.new_list Mem.set_heap Mem.heap
                         Mem.generator Mem.console].
    rewrite !length_app. cbn [List.length].
    rewrite <- !Nat.add_assoc. cbn [Nat.add].
    rewrite <- !app_assoc. cbn [app].
    unfold four_from in Hrun. rewrite Hrun.
    unfold observe, addresses_of, final_polish, polished.
    run_on_heap;
      (split; [reflexivity|]; split; [reflexivity|]; repeat constructor; lia).
Qed.

(** C7.  [evaluate_answer] is deterministic: two calls with identical
    arguments return identical results (the same score and reason, and
    lists [strengths], [weaknesses] and [tips] with the same items),
    whatever the state of the process at each call: the objects on the heap,
    the state of the generator of [random], what the console and the
    session log hold.  A call leaves the generator, the console and the log
    as they were, changes no object that was there, and returns three lists
    that are new objects. *)
Theorem evaluate_answer_deterministic (q : Question) (a : string)
  (p1 p2 : Mem.Process G) :
  observe (evaluate_answer_on G q a p1) = observe (evaluate_answer_on G q a p2)
  /\ Mem.generator (snd (evaluate_answer_on G q a p1)) = Mem.generator p1
  /\ Mem.console (snd (evaluate_answer_on G q a p1)) = Mem.console p1
  /\ (exists added,
        Mem.heap (snd (evaluate_answer_on G q a p1))
        = (Mem.heap p1 ++ added)%list)
  /\ Forall (fun address => (List.length (Mem.heap p1) <= address)%nat)
       (addresses_of (evaluate_answer_on G q a p1)).
Proof.
  destruct (evaluate_answer_on_refines q a p1) as (added1 & E1 & S1 & F1).
  destruct (evaluate_answer_on_refines q a p2) as (added2 & E2 & _ & _).
  split; [rewrite E1, E2; reflexivity|].
  rewrite S1. split; [reflexivity|]. split; [reflexivity|].
  split; [exists added1; reflexivity|exact F1].
Qed.

End ProcessFacts.

Example call_on_fresh_process :
  observe (evaluate_answer_on nat cia_question cia_answer fresh_process)
  = Py.ok cia_result.
Proof. vm_compute. reflexivity. Qed.

Example call_on_busy_process :
  observe (evaluate_answer_on nat cia_question cia_answer busy_process)
  = Py.ok cia_result
  /\ addresses_of (evaluate_answer_on nat cia_question cia_answer busy_process)
     = [3; 4; 5]%nat.
Proof. split; vm_compute; reflexivity. Qed.

(** A second call in the state that a first call leaves *)
Example call_twice :
  observe
    (evaluate_answer_on nat cia_question cia_answer
       (snd (evaluate_answer_on nat cia_question cia_answer busy_process)))
  = Py.ok cia_result.
Proof. vm_compute. reflexivity. Qed.
